(** * Bad passwords and the NIST guidelines: the notebook's rule pipeline

    A shallow embedding of the code cells of the notebook
    [Bad passwords and the NIST guidelines]: Python strings are lists of
    Unicode code points, the [users] DataFrame is a finite map from column
    names to columns, every code cell is a transformer of that frame, and the
    three regular expressions of the notebook are run by a backtracking
    matcher that follows Python's [re] module on the constructs they use. *)

From Stdlib Require Import ZArith NArith Ascii String.
From stdpp Require Import base option list gmap strings fin_maps.

Open Scope Z_scope.
Open Scope nat_scope.

(** ** Python strings *)

(** A Python [str] is a sequence of code points; [len] counts them. *)
Abbreviation char := N.
Abbreviation str := (list N).

(** Reading an ASCII literal as a Python string. *)
Definition cps (s : string) : str := N_of_ascii <$> list_ascii_of_string s.

Definition NEWLINE : char := 10%N.
Definition DOT : char := 46%N.
Definition UNDERSCORE : char := 95%N.

(** The Unicode character database is not part of the notebook: the
    alphanumeric test and the full lowercase mapping of the code points
    above ASCII are taken as given.  [uni_lower before c after] is the
    lowercase expansion of [c] between [before] and [after] (the context is
    what Python's final-sigma rule reads); the expansion is never empty. *)
Class UnicodeDB := {
  uni_isalnum : char → bool;
  uni_lower : str → char → str → char * str
}.

(** The database that knows nothing above ASCII. *)
Definition ascii_only : UnicodeDB :=
  {| uni_isalnum := λ _, false; uni_lower := λ _ c _, (c, []) |}.

Definition between (lo hi c : char) : bool := ((lo <=? c) && (c <=? hi))%N.
Arguments between (lo hi c)%_N.

Definition ascii_isalnum (c : char) : bool :=
  between 48 57 c || between 65 90 c || between 97 122 c.

Definition ascii_lower (c : char) : char :=
  if between 65 90 c then (c + 32)%N else c.

Section Strings.
Context {U : UnicodeDB}.

(** [\w] on a [str] pattern: alphanumeric or underscore. *)
Definition is_word (c : char) : bool :=
  if (c <? 128)%N then ascii_isalnum c || (c =? UNDERSCORE)%N
  else uni_isalnum c.

Definition lower_char (before : str) (c : char) (after : str) : str :=
  if (c <? 128)%N then [ascii_lower c]
  else let '(h, t) := uni_lower before c after in h :: t.

Fixpoint lower_from (before : str) (s : str) : str :=
  match s with
  | [] => []
  | c :: after => lower_char before c after ++ lower_from (before ++ [c]) after
  end.

(** [str.lower()] *)
Definition lower (s : str) : str := lower_from [] s.
End Strings.

(** ** Regular expressions *)

(** The constructs that occur in the notebook's three patterns. *)
Inductive regex : Type :=
| Dot                              (* .      any character but a newline *)
| WordCh                           (* \w *)
| Lit (c : char)                   (* \.     an escaped literal *)
| Bol                              (* ^      start of the string *)
| Eol                              (* $      end, or before a final newline *)
| Cat (r1 r2 : regex)              (* r1r2 *)
| AtLeast (n : nat) (r : regex)    (* r{n,}  greedy; r+ is r{1,} *)
| Group (g : nat) (r : regex)      (* (r)    capturing group number g *)
| Backref (g : nat).               (* \g *)

(** The state of a match attempt: how many characters lie before the
    cursor, the text after it, and the groups captured so far. *)
Record mstate : Type := MState {
  pos : nat;
  rest : str;
  groups : gmap nat str
}.

Definition advance (n : nat) (st : mstate) : mstate :=
  MState (n + pos st) (drop n (rest st)) (groups st).

(** Closing group [g], opened when the text after the cursor was [from]. *)
Definition capture (g : nat) (from : str) (st : mstate) : mstate :=
  MState (pos st) (rest st)
         (<[g := take (length from - length (rest st)) from]> (groups st)).

Fixpoint strip_prefix (p s : str) : option str :=
  match p, s with
  | [], _ => Some s
  | a :: p', b :: s' => if (a =? b)%N then strip_prefix p' s' else None
  | _ :: _, [] => None
  end.

Definition at_eol (s : str) : bool :=
  match s with
  | [] => true
  | [c] => (c =? NEWLINE)%N
  | _ => false
  end.

Definition matcher := mstate → (mstate → option mstate) → option mstate.

(** One character that satisfies [p]. *)
Definition one_char (p : char → bool) : matcher := λ st k,
  match rest st with
  | c :: _ => if p c then k (advance 1 st) else None
  | [] => None
  end.

(** Greedy repetition with backtracking: take one more [body] while it
    consumes text, and fall back to the continuation once the required
    [n] repetitions are done.  [fuel] bounds the number of repetitions; the
    text left is longer than the number of repetitions that consume. *)
Fixpoint greedy (body : matcher) (fuel n : nat) (st : mstate)
    (k : mstate → option mstate) : option mstate :=
  match fuel with
  | 0 => None
  | S fuel' =>
      match body st (λ st',
              if length (rest st') <? length (rest st)
              then greedy body fuel' (pred n) st' k else None) with
      | Some m => Some m
      | None => match n with 0 => k st | S _ => None end
      end
  end.

Section Matching.
Context {U : UnicodeDB}.

Fixpoint run (r : regex) : matcher :=
  match r with
  | Dot => one_char (λ c, negb (c =? NEWLINE)%N)
  | WordCh => one_char is_word
  | Lit a => one_char (λ c, (c =? a)%N)
  | Bol => λ st k, if pos st is 0 then k st else None
  | Eol => λ st k, if at_eol (rest st) then k st else None
  | Cat r1 r2 => λ st k, run r1 st (λ st', run r2 st' k)
  | AtLeast n r1 => λ st k, greedy (run r1) (S (length (rest st))) n st k
  | Group g r1 => λ st k, run r1 st (λ st', k (capture g (rest st) st'))
  | Backref g => λ st k,
      match groups st !! g with
      | Some s =>
          match strip_prefix s (rest st) with
          | Some _ => k (advance (length s) st)
          | None => None
          end
      | None => None
      end
  end.

(** [re.search]: the first position, left to right, where the pattern
    matches; the end of the string is a position too. *)
Fixpoint search_from (r : regex) (p : nat) (s : str) : option mstate :=
  match run r (MState p s ∅) Some with
  | Some m => Some m
  | None =>
      match s with
      | [] => None
      | _ :: s' => search_from r (S p) s'
      end
  end.

Definition re_search (r : regex) (s : str) : option mstate := search_from r 0 s.
End Matching.

(** The three patterns of the notebook. *)

(** [r'^(\w+)\.'] *)
Definition first_name_pattern : regex :=
  Cat Bol (Cat (Group 1 (AtLeast 1 WordCh)) (Lit DOT)).

(** [r'\.(\w+$)'] *)
Definition last_name_pattern : regex :=
  Cat (Lit DOT) (Group 1 (Cat (AtLeast 1 WordCh) Eol)).

(** [r'(.)\1{3,}'] *)
Definition repeats_pattern : regex :=
  Cat (Group 1 Dot) (AtLeast 3 (Backref 1)).

(** ** Series and frames *)

(** What a cell of a column holds. *)
Inductive value : Type :=
| VStr (s : str)
| VInt (n : Z)
| VBool (b : bool)
| NaN.

#[global] Instance value_eq_dec : EqDecision value.
Proof. solve_decision. Defined.

(** A Series is its sequence of values in row order; a DataFrame maps
    column names to Series.  [users[col]] on a missing column raises
    [KeyError], which is [None] here. *)
Abbreviation Series := (list value).
Abbreviation DataFrame := (gmap string (list value)).

(** One row of [datasets/users.csv]. *)
Record user : Type := User {
  id : Z;
  user_name : str;
  password : str
}.

(** The [users] frame of these rows, every [user_name] and [password] a
    string.  How the text of [datasets/users.csv] becomes such a frame is
    [pd.read_csv]'s business and is not modelled. *)
Definition read_users (rows : list user) : DataFrame :=
  <["id" := (λ u, VInt (id u)) <$> rows]>
    (<["user_name" := (λ u, VStr (user_name u)) <$> rows]>
       (<["password" := (λ u, VStr (password u)) <$> rows]> ∅)).

(** *** Elementwise methods, as pandas applies them to each value *)

Definition matched (m : option mstate) : bool :=
  match m with Some _ => true | None => false end.

(** The text of group 1 of a match. *)
Definition g1 (m : option mstate) : option str := m ≫= λ st, groups st !! 1.

(** [.str.len()] *)
Definition str_len (v : value) : value :=
  match v with VStr s => VInt (Z.of_nat (length s)) | _ => NaN end.

(** [< n]: a comparison with a missing value is [False]. *)
Definition lt (n : Z) (v : value) : value :=
  match v with VInt m => VBool (m <? n)%Z | _ => VBool false end.

(** [.isin(values)] *)
Definition isin (values : list value) (v : value) : value :=
  VBool (bool_decide (v ∈ values)).

(** [== other]: a missing value equals nothing. *)
Definition eq_value (a b : value) : value :=
  match a, b with
  | NaN, _ | _, NaN => VBool false
  | _, _ => VBool (bool_decide (a = b))
  end.

(** [== True] *)
Definition eq_True (v : value) : value := VBool (bool_decide (v = VBool true)).

(** [|] on boolean values. *)
Definition or_value (a b : value) : value :=
  match a, b with
  | VBool x, VBool y => VBool (x || y)
  | _, _ => NaN
  end.

Section Methods.
Context {U : UnicodeDB}.

(** [.str.lower()] *)
Definition str_lower (v : value) : value :=
  match v with VStr s => VStr (lower s) | _ => NaN end.

(** [.str.extract(pat)] with one group: the group of the first match,
    missing when there is no match. *)
Definition str_extract (pat : regex) (v : value) : value :=
  match v with
  | VStr s => match g1 (re_search pat s) with Some w => VStr w | None => NaN end
  | _ => NaN
  end.

(** [.str.contains(pat)] *)
Definition str_contains (pat : regex) (v : value) : value :=
  match v with VStr s => VBool (matched (re_search pat s)) | _ => NaN end.
End Methods.

(** ** The code cells *)

Section Notebook.
Context {U : UnicodeDB}.

(** The two reference lists, as [pd.read_csv(..., squeeze=True)] returns
    them: [common_passwords] and [words]. *)
Variables (common_passwords words : list value).

(** Cell 2:
    [users['length'] = users['password'].str.len()]
    [users['too_short'] = users['length'] < 8] *)
Definition cell_too_short (users : DataFrame) : option DataFrame :=
  password ← users !! "password";
  let users := <["length" := str_len <$> password]> users in
  len ← users !! "length";
  Some (<["too_short" := lt 8 <$> len]> users).

(** Cell 4:
    [users['common_password'] = users['password'].isin(common_passwords)] *)
Definition cell_common_password (users : DataFrame) : option DataFrame :=
  password ← users !! "password";
  Some (<["common_password" := isin common_passwords <$> password]> users).

(** Cell 5:
    [users['common_word'] = users['password'].str.lower().isin(words)] *)
Definition cell_common_word (users : DataFrame) : option DataFrame :=
  password ← users !! "password";
  Some (<["common_word" := isin words <$> (str_lower <$> password)]> users).

(** Cell 6:
    [users['first_name'] = users['user_name'].str.extract(r'^(\w+)\.')]
    [users['last_name'] = users['user_name'].str.extract(r'\.(\w+$)')]
    [criterion1 = users['password'].str.lower() == users['first_name']]
    [criterion2 = users['password'].str.lower() == users['last_name']]
    [users['uses_name'] = (criterion1)|(criterion2)] *)
Definition cell_uses_name (users : DataFrame) : option DataFrame :=
  name ← users !! "user_name";
  let users := <["first_name" := str_extract first_name_pattern <$> name]> users in
  name ← users !! "user_name";
  let users := <["last_name" := str_extract last_name_pattern <$> name]> users in
  password ← users !! "password";
  first ← users !! "first_name";
  let criterion1 := zip_with eq_value (str_lower <$> password) first in
  password ← users !! "password";
  last ← users !! "last_name";
  let criterion2 := zip_with eq_value (str_lower <$> password) last in
  Some (<["uses_name" := zip_with or_value criterion1 criterion2]> users).

(** Cell 7:
    [users['too_many_repeats'] = users['password'].str.contains(r'(.)\1{3,}')] *)
Definition cell_too_many_repeats (users : DataFrame) : option DataFrame :=
  password ← users !! "password";
  Some (<["too_many_repeats" := str_contains repeats_pattern <$> password]> users).

(** Cell 8:
    [too_short = (users['too_short'] == True)] and likewise for the other
    four columns, then
    [users['bad_password'] = too_short | common_password | common_word
                             | uses_name | too_many_repeats] *)
Definition cell_bad_password (users : DataFrame) : option DataFrame :=
  c ← users !! "too_short";
  let too_short := eq_True <$> c in
  c ← users !! "common_password";
  let common_password := eq_True <$> c in
  c ← users !! "common_word";
  let common_word := eq_True <$> c in
  c ← users !! "uses_name";
  let uses_name := eq_True <$> c in
  c ← users !! "too_many_repeats";
  let too_many_repeats := eq_True <$> c in
  Some (<["bad_password" :=
            zip_with or_value
              (zip_with or_value
                 (zip_with or_value
                    (zip_with or_value too_short common_password)
                    common_word)
                 uses_name)
              too_many_repeats]> users).

(** The cells in the order of the notebook. *)
Definition notebook (users : DataFrame) : option DataFrame :=
  users ← cell_too_short users;
  users ← cell_common_password users;
  users ← cell_common_word users;
  users ← cell_uses_name users;
  users ← cell_too_many_repeats users;
  cell_bad_password users.

(** *** What the cells compute for one row *)

Definition too_short (password : str) : value := lt 8 (str_len (VStr password)).

Definition common_password (password : str) : value :=
  isin common_passwords (VStr password).

Definition common_word (password : str) : value :=
  isin words (str_lower (VStr password)).

Definition first_name (user_name : str) : value :=
  str_extract first_name_pattern (VStr user_name).

Definition last_name (user_name : str) : value :=
  str_extract last_name_pattern (VStr user_name).

Definition uses_name (user_name password : str) : value :=
  or_value (eq_value (str_lower (VStr password)) (first_name user_name))
           (eq_value (str_lower (VStr password)) (last_name user_name)).

Definition too_many_repeats (password : str) : value :=
  str_contains repeats_pattern (VStr password).

Definition bad_password (u : user) : value :=
  or_value
    (or_value
       (or_value
          (or_value (eq_True (too_short (password u)))
                    (eq_True (common_password (password u))))
          (eq_True (common_word (password u))))
       (eq_True (uses_name (user_name u) (password u))))
    (eq_True (too_many_repeats (password u))).
End Notebook.

(** ** Direct readings of the three patterns

    What each pattern finds, written as plain list functions; the lemmas
    below prove that the matcher computes exactly these. *)

Section Readings.
Context {U : UnicodeDB}.

(** The longest prefix of word characters. *)
Fixpoint word_run (s : str) : str :=
  match s with
  | c :: t => if is_word c then c :: word_run t else []
  | [] => []
  end.

(** [^(\w+)\.] : a non-empty run of word characters at the start,
    followed by a dot. *)
Definition first_token (s : str) : option str :=
  match word_run s, drop (length (word_run s)) s with
  | _ :: _, d :: _ => if (d =? DOT)%N then Some (word_run s) else None
  | _, _ => None
  end.

(** [(\w+$)] right after a dot: a non-empty run of word characters that
    reaches the end of the string, or the newline that ends it. *)
Definition tail_token (t : str) : option str :=
  match word_run t with
  | _ :: _ => if at_eol (drop (length (word_run t)) t) then Some (word_run t) else None
  | [] => None
  end.

(** [\.(\w+$)] searched from the left. *)
Fixpoint last_token (s : str) : option str :=
  match s with
  | [] => None
  | d :: t =>
      if (d =? DOT)%N
      then match tail_token t with Some w => Some w | None => last_token t end
      else last_token t
  end.
End Readings.

(** [s] starts with [n] copies of [c]. *)
Fixpoint starts_with_run (c : char) (n : nat) (s : str) : bool :=
  match n with
  | 0 => true
  | S n' =>
      match s with
      | a :: t => (c =? a)%N && starts_with_run c n' t
      | [] => false
      end
  end.

(** [(.)\1{3,}] searched from the left: some character other than a newline
    is followed by three more copies of itself. *)
Fixpoint has_run4 (s : str) : bool :=
  match s with
  | [] => false
  | c :: t => (negb (c =? NEWLINE)%N && starts_with_run c 3 t) || has_run4 t
  end.

(** A name token: a non-empty run of word characters. *)
Definition is_token `{U : UnicodeDB} (w : str) : bool :=
  negb (bool_decide (w = [])) && forallb is_word w.

Definition token_or_nan `{U : UnicodeDB} (w : str) : value :=
  if is_token w then VStr w else NaN.

(** [s] without the newline that ends it, if one does. *)
Fixpoint chomp (s : str) : str :=
  match s with
  | [] => []
  | [c] => if (c =? NEWLINE)%N then [] else [c]
  | c :: t => c :: chomp t
  end.

(** [users[col][i]] *)
Definition cell_at (df : DataFrame) (col : string) (i : nat) : option value :=
  df !! col ≫= (.!! i).

(** The frame the notebook ends with, column by column. *)
Definition evaluated `{U : UnicodeDB} (common_passwords words : list value)
    (rows : list user) : DataFrame :=
  <["bad_password" := bad_password common_passwords words <$> rows]>
  (<["too_many_repeats" := (λ u, too_many_repeats (password u)) <$> rows]>
  (<["uses_name" := (λ u, uses_name (user_name u) (password u)) <$> rows]>
  (<["last_name" := (λ u, last_name (user_name u)) <$> rows]>
  (<["first_name" := (λ u, first_name (user_name u)) <$> rows]>
  (<["common_word" := (λ u, common_word words (password u)) <$> rows]>
  (<["common_password" := (λ u, common_password common_passwords (password u)) <$> rows]>
  (<["too_short" := (λ u, too_short (password u)) <$> rows]>
  (<["length" := (λ u, str_len (VStr (password u))) <$> rows]>
  (read_users rows))))))))).

(** The first twelve users the notebook prints, and reference lists that
    hold the two entries those users hit. *)
Definition head12 : list user :=
  [User 1 (cps "vance.jennings") (cps "joobheco");
   User 2 (cps "consuelo.eaton") (cps "0869347314");
   User 3 (cps "mitchel.perkins") (cps "fabypotter");
   User 4 (cps "odessa.vaughan") (cps "aharney88");
   User 5 (cps "araceli.wilder") (cps "acecdn3000");
   User 6 (cps "shawn.harrington") (cps "5278049");
   User 7 (cps "evelyn.gay") (cps "master");
   User 8 (cps "noreen.hale") (cps "murphy");
   User 9 (cps "gladys.ward") (cps "lwsves2");
   User 10 (cps "brant.zimmerman") (cps "1190KAREN5572497");
   User 11 (cps "leanna.abbott") (cps "aivlys24");
   User 12 (cps "milford.hubbard") (cps "hubbard")].

(** The six users cell 7 prints. *)
Definition repeaters : list user :=
  [User 147 (cps "patti.dixon") (cps "555555");
   User 573 (cps "cornelia.bradley") (cps "555555");
   User 645 (cps "essie.lopez") (cps "11111");
   User 799 (cps "charley.key") (cps "888888");
   User 808 (cps "thurman.osborne") (cps "rinnnng0");
   User 942 (cps "mitch.ferguson") (cps "aaaaaa")].

Definition top_passwords : list value :=
  [VStr (cps "123456"); VStr (cps "password"); VStr (cps "master");
   VStr (cps "murphy")].

Definition top_words : list value :=
  [VStr (cps "the"); VStr (cps "of"); VStr (cps "master"); VStr (cps "murphy")].

Definition head12_frame : DataFrame :=
  default ∅ (notebook (U:=ascii_only) top_passwords top_words (read_users head12)).

(** ** The rest of the notebook: any frame, and what the cells print *)

(** The [.str] accessor refuses a column that holds no string
    ([AttributeError]), and the cells above do not model that refusal.  What
    is proved about frames other than [read_users rows] is therefore stated
    for frames whose [user_name] and [password] columns, where present,
    hold at least one string and otherwise only missing values: on those
    the accessor goes through. *)
Definition is_str (v : value) : bool :=
  match v with VStr _ => true | _ => false end.

Definition is_nan (v : value) : bool :=
  match v with NaN => true | _ => false end.

Definition string_column (s : Series) : bool :=
  existsb is_str s && forallb (λ v, is_str v || is_nan v) s.

Definition accepts_str (users : DataFrame) (col : string) : bool :=
  match users !! col with Some s => string_column s | None => true end.

Definition string_frame (users : DataFrame) : bool :=
  accepts_str users "user_name" && accepts_str users "password".

(** A frame without a [user_name] column. *)
Definition passwords_only : DataFrame :=
  <["password" := [VStr (cps "joobheco"); VStr (cps "master")]]> ∅.

(** The nine columns the cells assign. *)
Definition written_columns : list string :=
  ["length"; "too_short"; "common_password"; "common_word"; "first_name";
   "last_name"; "uses_name"; "too_many_repeats"; "bad_password"].

Section Columns.
Context {U : UnicodeDB}.
Variables (common_passwords words : list value).

(** The columns of cells 6 and 8 as the cells build them from the
    [user_name] column [names] and the [password] column [passwords]. *)
Definition uses_name_column (names passwords : Series) : Series :=
  zip_with or_value
    (zip_with eq_value (str_lower <$> passwords)
       (str_extract first_name_pattern <$> names))
    (zip_with eq_value (str_lower <$> passwords)
       (str_extract last_name_pattern <$> names)).

Definition bad_password_column (names passwords : Series) : Series :=
  zip_with or_value
    (zip_with or_value
       (zip_with or_value
          (zip_with or_value
             (eq_True <$> (lt 8 <$> (str_len <$> passwords)))
             (eq_True <$> (isin common_passwords <$> passwords)))
          (eq_True <$> (isin words <$> (str_lower <$> passwords))))
       (eq_True <$> uses_name_column names passwords))
    (eq_True <$> (str_contains repeats_pattern <$> passwords)).

(** The frame the cells leave when they start from [users], whose
    [user_name] and [password] columns are [names] and [passwords]. *)
Definition written (names passwords : Series) (users : DataFrame) : DataFrame :=
  <["bad_password" := bad_password_column names passwords]>
  (<["too_many_repeats" := str_contains repeats_pattern <$> passwords]>
  (<["uses_name" := uses_name_column names passwords]>
  (<["last_name" := str_extract last_name_pattern <$> names]>
  (<["first_name" := str_extract first_name_pattern <$> names]>
  (<["common_word" := isin words <$> (str_lower <$> passwords)]>
  (<["common_password" := isin common_passwords <$> passwords]>
  (<["too_short" := lt 8 <$> (str_len <$> passwords)]>
  (<["length" := str_len <$> passwords]> users)))))))).
End Columns.

(** [users.head(n)] *)
Definition head (n : nat) (df : DataFrame) : DataFrame := take n <$> df.

(** [s[mask]]: the values of [s] where the boolean [mask] is [True]. *)
Fixpoint mask_series (mask s : Series) : Series :=
  match mask, s with
  | m :: mask', v :: s' =>
      if bool_decide (m = VBool true) then v :: mask_series mask' s'
      else mask_series mask' s'
  | _, _ => []
  end.

(** [users[mask]] *)
Definition mask_rows (mask : Series) (df : DataFrame) : DataFrame :=
  mask_series mask <$> df.

(** What cell 7 prints: [users[users['too_many_repeats']==True]] *)
Definition shown_repeats (users : DataFrame) : option DataFrame :=
  c ← users !! "too_many_repeats";
  Some (mask_rows (eq_True <$> c) users).

(** Python's [+] on the values of a column: [True] counts as 1, a missing
    value makes the sum missing, a string raises [TypeError]. *)
Definition number (v : value) : Z :=
  match v with VInt n => n | VBool b => Z.b2z b | _ => 0%Z end.

Definition add_value (a b : value) : option value :=
  match a, b with
  | VStr _, _ | _, VStr _ => None
  | NaN, _ | _, NaN => Some NaN
  | _, _ => Some (VInt (number a + number b))
  end.

(** [sum(series)]: from 0, left to right. *)
Definition py_sum (s : Series) : option value :=
  foldl (λ acc v, acc ≫= λ a, add_value a v) (Some (VInt 0)) s.

(** [sum(users[col])], the number each cell prints. *)
Definition printed_count (col : string) (users : DataFrame) : option value :=
  users !! col ≫= py_sum.

(** The cells up to cell 7, whose last line prints the flagged rows. *)
Definition through_cell7 `{U : UnicodeDB} (common_passwords words : list value)
    (users : DataFrame) : option DataFrame :=
  users ← cell_too_short users;
  users ← cell_common_password common_passwords users;
  users ← cell_common_word words users;
  users ← cell_uses_name users;
  cell_too_many_repeats users.

(** How many elements satisfy [f]. *)
Fixpoint count_where {A} (f : A → bool) (l : list A) : Z :=
  match l with
  | [] => 0
  | x :: l' => (Z.b2z (f x) + count_where f l')%Z
  end.

(** Two small frames to run the cells on: one with a stale result column,
    one with a missing password. *)
Definition head12_stale : DataFrame :=
  <["bad_password" := replicate 12 (VBool true)]> (read_users head12).

Definition two_users : DataFrame :=
  <["user_name" := [VStr (cps "ann.lee"); VStr (cps "bob.ray")]]>
    (<["password" := [VStr (cps "secret12"); NaN]]> ∅).

(** The last cell: [new_password = "LonleyFatQwerty3123"] *)
Definition new_password : str := cps "LonleyFatQwerty3123".

(** ASCII only, and holding an ASCII capital letter. *)
Definition is_ascii (s : str) : bool := forallb (λ c, (c <? 128)%N) s.
Definition has_capital (s : str) : bool := existsb (between 65 90) s.

(** * Facts about the matcher *)

Section MatcherFacts.
Context {U : UnicodeDB}.

Lemma is_word_dot : is_word DOT = false.
Proof. reflexivity. Qed.

Lemma is_word_newline : is_word NEWLINE = false.
Proof. reflexivity. Qed.

Lemma word_run_prefix s : word_run s = take (length (word_run s)) s.
Proof.
  induction s as [|c t IH]; simpl; [done|].
  destruct (is_word c); simpl; [by rewrite <- IH | done].
Qed.

Lemma word_run_length s : length (word_run s) ≤ length s.
Proof.
  induction s as [|c t IH]; simpl; [done|].
  destruct (is_word c); simpl; lia.
Qed.

Lemma word_run_all s : forallb is_word (word_run s) = true.
Proof.
  induction s as [|c t IH]; simpl; [done|].
  destruct (is_word c) eqn:E; simpl; [by rewrite E | done].
Qed.

(** Greedy [\w{n,}] in front of a continuation that cannot start at a
    word character: the whole run is taken, and no shorter one is tried
    with success. *)
Lemma greedy_word fuel n st k :
  length (rest st) < fuel →
  (∀ st' c t, rest st' = c :: t → is_word c = true → k st' = None) →
  greedy (run WordCh) fuel n st k =
    if n <=? length (word_run (rest st))
    then k (advance (length (word_run (rest st))) st) else None.
Proof.
  intros Hfuel Hk. revert n st Hfuel.
  induction fuel as [|fuel IH]; intros n [p s g] Hfuel; [lia|].
  simpl in *. unfold one_char. simpl.
  destruct s as [|c t]; simpl.
  - destruct n; [|done]. done.
  - destruct (is_word c) eqn:Hc; simpl.
    + unfold advance at 1 2. simpl. rewrite !drop_0.
      replace (length t <? S (length t)) with true
        by (symmetry; apply Nat.ltb_lt; lia).
      rewrite IH by (simpl in *; lia). simpl.
      unfold advance. simpl.
      replace (length (word_run t) + S p) with (S (length (word_run t) + p)) by lia.
      destruct n as [|n]; simpl.
      * destruct (k _) eqn:Hres; [done|].
        by eapply Hk.
      * destruct (n <=? length (word_run t)); [|done].
        by destruct (k _).
    + destruct n; [|done]. done.
Qed.
Lemma search_from_unfold r p s :
  search_from r p s =
    match run r (MState p s ∅) Some with
    | Some m => Some m
    | None => match s with [] => None | _ :: s' => search_from r (S p) s' end
    end.
Proof. by destruct s. Qed.

(** *** [^(\w+)\.] *)

Lemma first_name_attempt s :
  run first_name_pattern (MState 0 s ∅) Some =
    greedy (run WordCh) (S (length s)) 1 (MState 0 s ∅)
      (λ st', one_char (λ c, (c =? DOT)%N) (capture 1 s st') Some).
Proof. reflexivity. Qed.

Lemma first_name_anchored p s : search_from first_name_pattern (S p) s = None.
Proof. revert p. induction s as [|c t IH]; intros p; [done|]. apply IH. Qed.

Lemma take_word_run s :
  take (length s - length (drop (length (word_run s)) s)) s = word_run s.
Proof.
  rewrite length_drop. pose proof (word_run_length s).
  replace (length s - (length s - length (word_run s))) with (length (word_run s)) by lia.
  symmetry. apply word_run_prefix.
Qed.

Lemma first_name_search s : g1 (re_search first_name_pattern s) = first_token s.
Proof.
  unfold re_search, first_token.
  assert (g1 (run first_name_pattern (MState 0 s ∅) Some) =
          match word_run s, drop (length (word_run s)) s with
          | _ :: _, d :: _ => if (d =? DOT)%N then Some (word_run s) else None
          | _, _ => None
          end ∧
          (run first_name_pattern (MState 0 s ∅) Some = None ∨
           is_Some (g1 (run first_name_pattern (MState 0 s ∅) Some)))) as [Hg Hs].
  { rewrite first_name_attempt, greedy_word; simpl; [|lia|].
    - destruct (word_run s) as [|w0 w] eqn:Hw; simpl; [by auto|].
      unfold one_char. simpl.
      destruct (drop (S (length w)) s) as [|d t] eqn:Hd; [by auto|].
      destruct (d =? DOT)%N; [|by auto]. simpl.
      rewrite lookup_insert_eq.
      pose proof (take_word_run s) as Ht. rewrite Hw in Ht. simpl in Ht.
      rewrite Ht. eauto.
    - intros st' c t Hrest Hc. unfold one_char. simpl. rewrite Hrest.
      destruct (c =? DOT)%N eqn:E; [|done].
      apply N.eqb_eq in E. subst c. by rewrite is_word_dot in Hc. }
  rewrite search_from_unfold, <- Hg.
  destruct (run first_name_pattern _ Some) as [m|]; [done|].
  destruct s; [done|]. by rewrite first_name_anchored.
Qed.

(** *** [\.(\w+$)] *)

Lemma last_name_attempt p s :
  run last_name_pattern (MState p s ∅) Some =
    one_char (λ c, (c =? DOT)%N) (MState p s ∅) (λ st,
      greedy (run WordCh) (S (length (rest st))) 1 st
        (λ st', if at_eol (rest st') then Some (capture 1 (rest st) st') else None)).
Proof. reflexivity. Qed.

Lemma last_name_at p s :
  g1 (run last_name_pattern (MState p s ∅) Some) =
    match s with
    | d :: t => if (d =? DOT)%N then tail_token t else None
    | [] => None
    end
  ∧ (run last_name_pattern (MState p s ∅) Some = None ∨
     is_Some (g1 (run last_name_pattern (MState p s ∅) Some))).
Proof.
  rewrite last_name_attempt. unfold one_char. cbn [rest].
  destruct s as [|d t]; [by auto|].
  destruct (d =? DOT)%N; [|by auto].
  unfold advance. cbn [rest pos groups]. rewrite skipn_cons, drop_0.
  rewrite greedy_word; simpl; [|lia|].
  - unfold tail_token.
    destruct (word_run t) as [|w0 w] eqn:Hw; simpl; [by auto|].
    destruct (at_eol (drop (S (length w)) t)) eqn:He; [|by auto]. simpl.
    rewrite lookup_insert_eq.
    pose proof (take_word_run t) as Ht. rewrite Hw in Ht. simpl in Ht.
    rewrite Ht. eauto.
  - intros st' c u Hrest Hc. rewrite Hrest. simpl.
    destruct u; [|done].
    destruct (c =? NEWLINE)%N eqn:E; [|done].
    apply N.eqb_eq in E. subst c. by rewrite is_word_newline in Hc.
Qed.

Lemma last_name_search_from p s :
  g1 (search_from last_name_pattern p s) = last_token s.
Proof.
  revert p. induction s as [|d t IH]; intros p;
    rewrite search_from_unfold;
    match goal with
    | |- context [run last_name_pattern (MState ?p ?s ∅) Some] =>
        destruct (last_name_at p s) as [Hg Hs]
    end;
    destruct (run last_name_pattern _ Some) as [m|]; simpl in *.
  - by destruct Hs as [|[? ?]].
  - done.
  - destruct Hs as [|[w Hw]]; [done|]. rewrite Hw in Hg |- *.
    destruct (d =? DOT)%N; [|done]. by rewrite <- Hg.
  - rewrite IH. destruct (d =? DOT)%N; [|done]. by rewrite <- Hg.
Qed.

Lemma last_name_search s : g1 (re_search last_name_pattern s) = last_token s.
Proof. apply last_name_search_from. Qed.

(** *** [(.)\1{3,}] *)

Lemma greedy_S body fuel n st k :
  greedy body (S fuel) n st k =
    match body st (λ st',
            if length (rest st') <? length (rest st)
            then greedy body fuel (pred n) st' k else None) with
    | Some m => Some m
    | None => match n with 0 => k st | S _ => None end
    end.
Proof. reflexivity. Qed.

Lemma run_backref g st k :
  run (Backref g) st k =
    match groups st !! g with
    | Some s =>
        match strip_prefix s (rest st) with
        | Some _ => k (advance (length s) st)
        | None => None
        end
    | None => None
    end.
Proof. reflexivity. Qed.

Lemma greedy_backref g c fuel n st :
  groups st !! g = Some [c] →
  length (rest st) < fuel →
  matched (greedy (run (Backref g)) fuel n st Some) = starts_with_run c n (rest st).
Proof.
  revert n st. induction fuel as [|fuel IH]; intros n [p s gs] Hg Hfuel; [lia|].
  rewrite greedy_S, run_backref. cbn [groups rest] in *. rewrite Hg.
  destruct s as [|a t]; cbn [strip_prefix].
  - by destruct n.
  - destruct (c =? a)%N eqn:E; cbn [strip_prefix andb starts_with_run].
    + unfold advance. cbn [rest pos groups length]. rewrite skipn_cons, drop_0.
      replace (length t <? S (length t)) with true
        by (symmetry; apply Nat.ltb_lt; lia).
      specialize (IH (pred n) (MState (1 + p) t gs) Hg).
      cbn [rest length] in *.
      destruct (greedy _ fuel (pred n) _ Some) eqn:Hres;
        destruct n; cbn [starts_with_run matched pred] in *;
        rewrite ?E; cbn [andb]; try done; rewrite <- IH; try done; lia.
    + destruct n; cbn [starts_with_run]; [done|]. by rewrite E.
Qed.

Lemma repeats_at p s :
  matched (run repeats_pattern (MState p s ∅) Some) =
    match s with
    | c :: t => negb (c =? NEWLINE)%N && starts_with_run c 3 t
    | [] => false
    end.
Proof.
  change (run repeats_pattern (MState p s ∅) Some) with
    (one_char (λ c, negb (c =? NEWLINE)%N) (MState p s ∅) (λ st',
       greedy (run (Backref 1)) (S (length (rest (capture 1 s st')))) 3
         (capture 1 s st') Some)).
  unfold one_char. cbn [rest]. destruct s as [|c t]; [done|].
  destruct (c =? NEWLINE)%N; [done|]. cbn [negb andb].
  rewrite (greedy_backref 1 c).
  - unfold advance, capture. cbn [rest]. by rewrite skipn_cons, drop_0.
  - unfold advance, capture. cbn [rest groups length].
    rewrite skipn_cons, drop_0, lookup_insert_eq. f_equal.
    replace (S (length t) - length t) with 1 by lia. done.
  - lia.
Qed.

Lemma repeats_search_from p s :
  matched (search_from repeats_pattern p s) = has_run4 s.
Proof.
  revert p. induction s as [|c t IH]; intros p;
    rewrite search_from_unfold;
    match goal with
    | |- context [run repeats_pattern (MState ?p ?s ∅) Some] =>
        pose proof (repeats_at p s) as H
    end;
    destruct (run repeats_pattern _ Some) as [m|]; simpl in *;
    rewrite <- ?H; done.
Qed.

Lemma repeats_search s : matched (re_search repeats_pattern s) = has_run4 s.
Proof. apply repeats_search_from. Qed.
End MatcherFacts.

(** * Facts about the readings *)

Section ReadingFacts.
Context {U : UnicodeDB}.

Lemma word_run_split s : s = word_run s ++ drop (length (word_run s)) s.
Proof.
  rewrite <- (take_drop (length (word_run s)) s) at 1.
  by rewrite <- word_run_prefix.
Qed.

Lemma word_run_app w c t :
  forallb is_word w = true → is_word c = false → word_run (w ++ c :: t) = w.
Proof.
  intros Hw Hc. induction w as [|a w IH]; simpl in *; [by rewrite Hc|].
  apply andb_prop in Hw as [Ha Hw]. rewrite Ha. by rewrite IH.
Qed.

Lemma dot_not_in_words w : forallb is_word w = true → DOT ∉ w.
Proof.
  induction w as [|c w IH]; simpl; [intros _; apply not_elem_of_nil|].
  intros [Hc Hw]%andb_prop [<-|?]%elem_of_cons; [|by apply IH].
  by rewrite is_word_dot in Hc.
Qed.

(** The text before the first dot is determined by the string. *)
Lemma first_dot_unique (w given t t' : str) :
  DOT ∉ w → DOT ∉ given → given ++ DOT :: t = w ++ DOT :: t' → w = given.
Proof.
  revert given. induction w as [|a w IH]; intros [|b g] Hw Hg Heq;
    simpl in *; simplify_eq.
  - done.
  - exfalso. apply Hg, elem_of_cons. by left.
  - exfalso. apply Hw, elem_of_cons. by left.
  - f_equal. apply IH; [| |done].
    + intros ?. apply Hw, elem_of_cons. by right.
    + intros ?. apply Hg, elem_of_cons. by right.
Qed.

(** **** The first name *)

Lemma first_token_Some s w :
  first_token s = Some w ↔
  w ≠ [] ∧ forallb is_word w = true ∧ ∃ t, s = w ++ DOT :: t.
Proof.
  unfold first_token. split.
  - pose proof (word_run_split s) as Hs. pose proof (word_run_all s) as Ha.
    destruct (word_run s) as [|w0 w'] eqn:Hw; [done|].
    destruct (drop _ s) as [|d t] eqn:Hd; [done|].
    destruct (d =? DOT)%N eqn:E; [|done].
    apply N.eqb_eq in E. subst d. intros [= <-].
    split; [done|]. split; [done|]. by exists t.
  - intros (Hne & Ha & t & ->).
    rewrite word_run_app by (done || apply is_word_dot).
    rewrite drop_app_length. destruct w; [done|]. by simpl.
Qed.

Lemma first_token_split given t :
  DOT ∉ given →
  first_token (given ++ DOT :: t) = if is_token given then Some given else None.
Proof.
  intros Hdot. unfold is_token.
  destruct (first_token _) as [w|] eqn:Hf.
  - apply first_token_Some in Hf as (Hne & Ha & t' & Heq).
    assert (w = given) as ->
      by (eapply first_dot_unique; eauto using dot_not_in_words).
    rewrite Ha. by rewrite bool_decide_eq_false_2.
  - destruct (bool_decide (given = [])) eqn:Hnil; [done|]. simpl.
    destruct (forallb is_word given) eqn:Ha; [|done].
    apply bool_decide_eq_false in Hnil.
    assert (first_token (given ++ DOT :: t) = Some given) as Hs
      by (apply first_token_Some; eauto).
    congruence.
Qed.

Lemma first_token_no_dot s : DOT ∉ s → first_token s = None.
Proof.
  intros Hdot. destruct (first_token s) as [w|] eqn:Hf; [|done].
  apply first_token_Some in Hf as (_ & _ & t & ->).
  exfalso. apply Hdot. apply elem_of_app. right. apply elem_of_cons. by left.
Qed.

Lemma first_token_shorter s w : first_token s = Some w → length w < length s.
Proof.
  intros (_ & _ & t & ->)%first_token_Some.
  rewrite length_app. simpl. lia.
Qed.

(** **** The last name *)

Lemma tail_token_chomp_aux l :
  (at_eol (drop (length (word_run l)) l) = true →
     word_run l = chomp l ∧ forallb is_word (chomp l) = true) ∧
  (at_eol (drop (length (word_run l)) l) = false →
     forallb is_word (chomp l) = false).
Proof.
  induction l as [|c t IH]; [by split|].
  cbn [word_run]. destruct (is_word c) eqn:Hc.
  - cbn [length]. rewrite skipn_cons.
    assert (chomp (c :: t) = c :: chomp t) as ->.
    { destruct t; [|done]. simpl.
      destruct (c =? NEWLINE)%N eqn:E; [|done].
      apply N.eqb_eq in E. subst c. by rewrite is_word_newline in Hc. }
    simpl. rewrite Hc. simpl. destruct IH as [IH1 IH2]. split.
    + intros He. destruct (IH1 He) as [-> ->]. done.
    + done.
  - cbn [length]. rewrite drop_0. destruct t as [|c' t].
    + simpl. destruct (c =? NEWLINE)%N; [done|]. simpl. rewrite Hc. done.
    + simpl. rewrite Hc. done.
Qed.

Lemma tail_token_chomp l :
  tail_token l = if is_token (chomp l) then Some (chomp l) else None.
Proof.
  unfold tail_token, is_token.
  destruct (tail_token_chomp_aux l) as [H1 H2].
  destruct (at_eol _) eqn:He.
  - destruct (H1 eq_refl) as [Hw Ha]. rewrite Ha, <- Hw.
    by destruct (word_run l).
  - rewrite (H2 eq_refl), andb_false_r. by destruct (word_run l).
Qed.

Lemma tail_token_dot t : DOT ∈ t → tail_token t = None.
Proof.
  intros Hdot. unfold tail_token.
  pose proof (word_run_split t) as Hs. pose proof (word_run_all t) as Ha.
  destruct (word_run t) as [|w0 w]; [done|].
  destruct (at_eol _) eqn:He; [|done]. exfalso.
  rewrite Hs in Hdot. apply elem_of_app in Hdot as [Hdot|Hdot].
  - by apply (dot_not_in_words _ Ha).
  - destruct (drop _ t) as [|c [|? ?]]; simpl in He; try done.
    + by apply not_elem_of_nil in Hdot.
    + apply N.eqb_eq in He. subst c.
      apply elem_of_cons in Hdot as [?|Hdot]; [done|].
      by apply not_elem_of_nil in Hdot.
Qed.

Lemma tail_token_length t w : tail_token t = Some w → length w ≤ length t.
Proof.
  unfold tail_token. pose proof (word_run_length t).
  destruct (word_run t); [done|]. destruct (at_eol _); [|done].
  by intros [= <-].
Qed.

Lemma last_token_no_dot s : DOT ∉ s → last_token s = None.
Proof.
  induction s as [|d t IH]; [done|]. intros Hdot. simpl.
  destruct (d =? DOT)%N eqn:E.
  - apply N.eqb_eq in E. subst d. exfalso. apply Hdot, elem_of_cons. by left.
  - apply IH. intros ?. apply Hdot, elem_of_cons. by right.
Qed.

Lemma last_token_split before family :
  DOT ∉ family → last_token (before ++ DOT :: family) = tail_token family.
Proof.
  intros Hdot. induction before as [|d p IH]; simpl.
  - rewrite last_token_no_dot by done. by destruct (tail_token family).
  - destruct (d =? DOT)%N; [|done].
    rewrite tail_token_dot; [done|].
    apply elem_of_app. right. apply elem_of_cons. by left.
Qed.

Lemma last_token_shorter s w : last_token s = Some w → length w < length s.
Proof.
  induction s as [|d t IH]; [done|]. simpl.
  destruct (d =? DOT)%N.
  - destruct (tail_token t) as [w'|] eqn:Ht.
    + intros [= <-]. apply tail_token_length in Ht. lia.
    + intros Hl. specialize (IH Hl). lia.
  - intros Hl. specialize (IH Hl). lia.
Qed.

(** **** Runs of one character *)

Lemma starts_with_run_spec c n s :
  starts_with_run c n s = true ↔ ∃ t, s = replicate n c ++ t.
Proof.
  revert s. induction n as [|n IH]; intros s; simpl.
  - split; [by exists s | done].
  - destruct s as [|a t]; [split; [done | by intros [? ?]]|].
    rewrite andb_true_iff, N.eqb_eq, IH. split.
    + intros [<- [t' ->]]. by exists t'.
    + intros [t' [= <- ->]]. eauto.
Qed.

Lemma has_run4_spec s :
  has_run4 s = true ↔
  ∃ pre c post, c ≠ NEWLINE ∧ s = pre ++ replicate 4 c ++ post.
Proof.
  induction s as [|a t IH]; cbn [has_run4].
  - split; [done|]. intros (pre & c & post & _ & H).
    by destruct pre.
  - rewrite orb_true_iff, andb_true_iff, negb_true_iff, N.eqb_neq.
    rewrite IH, starts_with_run_spec. split.
    + intros [[Hnl [post ->]] | (pre & c & post & Hnl & ->)].
      * by exists [], a, post.
      * by exists (a :: pre), c, post.
    + intros (pre & c & post & Hnl & H). destruct pre as [|b pre].
      * left. simpl in H. injection H as -> ->. eauto.
      * right. simpl in H. injection H as -> ->. eauto 6.
Qed.

(** **** Lowercasing never shortens *)

Lemma lower_from_length before s : length s ≤ length (lower_from before s).
Proof.
  revert before. induction s as [|c t IH]; intros before; simpl; [done|].
  rewrite length_app. specialize (IH (before ++ [c])).
  unfold lower_char. destruct (c <? 128)%N; [simpl; lia|].
  destruct (uni_lower before c t). simpl. lia.
Qed.

Lemma lower_length s : length s ≤ length (lower s).
Proof. apply lower_from_length. Qed.
End ReadingFacts.

(** * The notebook, row by row *)

Lemma zip_with_fmap_fmap {A B C D} (f : B → C → D) (g : A → B) (h : A → C) l :
  zip_with f (g <$> l) (h <$> l) = (λ x, f (g x) (h x)) <$> l.
Proof. induction l; simpl; [done | by f_equal]. Qed.

Ltac lookups :=
  repeat (rewrite ?lookup_insert_eq; rewrite ?lookup_insert_ne by done;
          cbn [mbind option_bind]).

Ltac columns :=
  repeat (rewrite <- list_fmap_compose || rewrite zip_with_fmap_fmap).

Section Rowwise.
Context {U : UnicodeDB}.
Variables (common_passwords words : list value).

(** The notebook runs to its end on every table of users, and leaves
    the frame [evaluated]. *)
Lemma notebook_evaluated rows :
  notebook common_passwords words (read_users rows)
  = Some (evaluated common_passwords words rows).
Proof.
  unfold notebook, cell_too_short, cell_common_password, cell_common_word,
    cell_uses_name, cell_too_many_repeats, cell_bad_password, read_users.
  lookups. columns. reflexivity.
Qed.

(** Every cell of the final frame is the rule applied to its own row. *)
Lemma evaluated_cells rows i u :
  rows !! i = Some u →
  let df := evaluated common_passwords words rows in
  cell_at df "user_name" i = Some (VStr (user_name u)) ∧
  cell_at df "password" i = Some (VStr (password u)) ∧
  cell_at df "length" i = Some (str_len (VStr (password u))) ∧
  cell_at df "too_short" i = Some (too_short (password u)) ∧
  cell_at df "common_password" i
    = Some (common_password common_passwords (password u)) ∧
  cell_at df "common_word" i = Some (common_word words (password u)) ∧
  cell_at df "first_name" i = Some (first_name (user_name u)) ∧
  cell_at df "last_name" i = Some (last_name (user_name u)) ∧
  cell_at df "uses_name" i = Some (uses_name (user_name u) (password u)) ∧
  cell_at df "too_many_repeats" i = Some (too_many_repeats (password u)) ∧
  cell_at df "bad_password" i = Some (bad_password common_passwords words u).
Proof.
  intros Hrow df.
  repeat split;
    unfold cell_at, df, evaluated, read_users; lookups;
    by rewrite list_lookup_fmap, Hrow.
Qed.

(** *** The rules on one row *)

Lemma too_short_value pw :
  too_short pw = VBool (bool_decide (length pw < 8)).
Proof.
  unfold too_short, lt, str_len. f_equal.
  destruct (Z.ltb_spec (Z.of_nat (length pw)) 8).
  - symmetry. apply bool_decide_eq_true. lia.
  - symmetry. apply bool_decide_eq_false. lia.
Qed.

Lemma first_name_value un :
  first_name un = match first_token un with Some w => VStr w | None => NaN end.
Proof. unfold first_name, str_extract. by rewrite first_name_search. Qed.

Lemma last_name_value un :
  last_name un = match last_token un with Some w => VStr w | None => NaN end.
Proof. unfold last_name, str_extract. by rewrite last_name_search. Qed.

Lemma too_many_repeats_value pw : too_many_repeats pw = VBool (has_run4 pw).
Proof. unfold too_many_repeats, str_contains. by rewrite repeats_search. Qed.

Lemma eq_value_name pw (name : option str) :
  eq_value (VStr pw) (match name with Some w => VStr w | None => NaN end)
  = VBool (bool_decide (name = Some pw)).
Proof.
  destruct name as [w|]; simpl; f_equal.
  apply bool_decide_ext. split; congruence.
Qed.

Lemma uses_name_value un pw :
  uses_name un pw =
    VBool (bool_decide (first_token un = Some (lower pw))
           || bool_decide (last_token un = Some (lower pw))).
Proof.
  unfold uses_name. rewrite first_name_value, last_name_value.
  cbn [str_lower]. by rewrite !eq_value_name.
Qed.
End Rowwise.

(** * The notebook against its own printed output *)

Example head12_too_short :
  head12_frame !! "too_short"
  = Some (VBool <$> [false; false; false; false; false; true; true; true; true;
                     false; false; true]).
Proof. vm_compute. reflexivity. Qed.

Example head12_uses_name :
  head12_frame !! "uses_name"
  = Some (VBool <$> [false; false; false; false; false; false; false; false;
                     false; false; false; true]).
Proof. vm_compute. reflexivity. Qed.

Example head12_first_name :
  head12_frame !! "first_name"
  = Some ((λ n, VStr (cps n)) <$>
          ["vance"; "consuelo"; "mitchel"; "odessa"; "araceli"; "shawn";
           "evelyn"; "noreen"; "gladys"; "brant"; "leanna"; "milford"]).
Proof. vm_compute. reflexivity. Qed.

Example head12_last_name :
  head12_frame !! "last_name"
  = Some ((λ n, VStr (cps n)) <$>
          ["jennings"; "eaton"; "perkins"; "vaughan"; "wilder"; "harrington";
           "gay"; "hale"; "ward"; "zimmerman"; "abbott"; "hubbard"]).
Proof. vm_compute. reflexivity. Qed.

Example head12_common_password :
  head12_frame !! "common_password"
  = Some (VBool <$> [false; false; false; false; false; false; true; true;
                     false; false; false; false]).
Proof. vm_compute. reflexivity. Qed.

Example repeaters_all_flagged :
  notebook (U:=ascii_only) top_passwords top_words (read_users repeaters)
    ≫= (.!! "too_many_repeats")
  = Some (replicate 6 (VBool true)).
Proof. vm_compute. reflexivity. Qed.

Example head12_bad_password :
  head12_frame !! "bad_password"
  = Some (VBool <$> [false; false; false; false; false; true; true; true; true;
                     false; false; true]).
Proof. vm_compute. reflexivity. Qed.

(** * The rules of the notebook *)

Section Rules.
Context {U : UnicodeDB}.
Variables (common_passwords words : list value).

Lemma eq_True_bool b : eq_True (VBool b) = VBool b.
Proof. by destruct b. Qed.

(** C5. The length rule: a password is [too_short] exactly when it has
    fewer than 8 code points; one of exactly 8 is not flagged. *)
Theorem too_short_boundary rows i u :
  rows !! i = Some u →
  ∃ df, notebook common_passwords words (read_users rows) = Some df ∧
        cell_at df "length" i = Some (VInt (Z.of_nat (length (password u)))) ∧
        cell_at df "too_short" i
          = Some (VBool (bool_decide (length (password u) < 8))).
Proof.
  intros Hrow. eexists. split; [apply notebook_evaluated|].
  destruct (evaluated_cells common_passwords words rows i u Hrow)
    as (_ & _ & Hlen & Hshort & _).
  split; [done|]. by rewrite Hshort, too_short_value.
Qed.

(** C1, as the notebook has it.  The common-password rule is an exact,
    case-sensitive comparison: the flag is set exactly when the password
    itself, as typed, is an entry of the list. *)
Theorem common_password_exact rows i u :
  rows !! i = Some u →
  ∃ df, notebook common_passwords words (read_users rows) = Some df ∧
        cell_at df "common_password" i
          = Some (VBool (bool_decide (VStr (password u) ∈ common_passwords))).
Proof.
  intros Hrow. eexists. split; [apply notebook_evaluated|].
  by destruct (evaluated_cells common_passwords words rows i u Hrow)
    as (_ & _ & _ & _ & Hcp & _).
Qed.

(** Running the cells again on the frame they produced changes nothing:
    every column is recomputed from [user_name] and [password] alone. *)
Lemma notebook_again rows :
  notebook common_passwords words (evaluated common_passwords words rows)
  = Some (evaluated common_passwords words rows).
Proof.
  unfold notebook, cell_too_short, cell_common_password, cell_common_word,
    cell_uses_name, cell_too_many_repeats, cell_bad_password.
  unfold evaluated, read_users.
  lookups. columns. reflexivity.
Qed.

(** C8. One table of users has one outcome; running the notebook on its
    own outcome reproduces it; and every output column lists the rule's
    value for the users in the order they came in. *)
Theorem evaluation_reproducible rows :
  ∃ df,
    (∀ df', notebook common_passwords words (read_users rows) = Some df'
            ↔ df' = df) ∧
    notebook common_passwords words df = Some df ∧
    df !! "user_name" = Some ((λ u, VStr (user_name u)) <$> rows) ∧
    df !! "password" = Some ((λ u, VStr (password u)) <$> rows) ∧
    df !! "too_short" = Some ((λ u, too_short (password u)) <$> rows) ∧
    df !! "common_password"
      = Some ((λ u, common_password common_passwords (password u)) <$> rows) ∧
    df !! "common_word"
      = Some ((λ u, common_word words (password u)) <$> rows) ∧
    df !! "uses_name"
      = Some ((λ u, uses_name (user_name u) (password u)) <$> rows) ∧
    df !! "too_many_repeats"
      = Some ((λ u, too_many_repeats (password u)) <$> rows) ∧
    df !! "bad_password" = Some (bad_password common_passwords words <$> rows).
Proof.
  exists (evaluated common_passwords words rows). split.
  { intros df'. rewrite notebook_evaluated. split; congruence. }
  split; [apply notebook_again|].
  repeat split; unfold evaluated, read_users; lookups; reflexivity.
Qed.
Lemma name_cell_eq (name : option str) x :
  Some (match name with Some w => VStr w | None => NaN end) = Some (VStr x)
  ↔ name = Some x.
Proof. destruct name; split; intros; by simplify_eq. Qed.

(** C6. A user name without a dot yields no first name and no last name
    (both missing, nothing raised), and a missing name equals no
    password: [uses_name] is [False] whatever the password is. *)
Theorem no_dot_no_match rows i u :
  rows !! i = Some u →
  DOT ∉ user_name u →
  ∃ df, notebook common_passwords words (read_users rows) = Some df ∧
        cell_at df "first_name" i = Some NaN ∧
        cell_at df "last_name" i = Some NaN ∧
        cell_at df "uses_name" i = Some (VBool false).
Proof.
  intros Hrow Hdot. eexists. split; [apply notebook_evaluated|].
  destruct (evaluated_cells common_passwords words rows i u Hrow)
    as (_ & _ & _ & _ & _ & _ & Hf & Hl & Hu & _).
  rewrite first_name_value, first_token_no_dot in Hf by done.
  rewrite last_name_value, last_token_no_dot in Hl by done.
  rewrite uses_name_value, first_token_no_dot, last_token_no_dot in Hu by done.
  done.
Qed.

(** C9. A password equal to the whole user name is never flagged by
    [uses_name]; the flag is set exactly when the lowercased password is
    the first name alone or the last name alone. *)
Theorem identifier_as_password rows i u :
  rows !! i = Some u →
  ∃ df, notebook common_passwords words (read_users rows) = Some df ∧
        (password u = user_name u →
           cell_at df "uses_name" i = Some (VBool false)) ∧
        (cell_at df "uses_name" i = Some (VBool true) ↔
           cell_at df "first_name" i = Some (VStr (lower (password u))) ∨
           cell_at df "last_name" i = Some (VStr (lower (password u)))).
Proof.
  intros Hrow. eexists. split; [apply notebook_evaluated|].
  destruct (evaluated_cells common_passwords words rows i u Hrow)
    as (_ & _ & _ & _ & _ & _ & Hf & Hl & Hu & _).
  rewrite Hf, Hl, Hu, uses_name_value, first_name_value, last_name_value.
  split.
  - intros ->. do 2 f_equal. pose proof (lower_length (user_name u)) as Hlen.
    rewrite !bool_decide_eq_false_2; [done| |].
    + intros H%last_token_shorter. lia.
    + intros H%first_token_shorter. lia.
  - rewrite !name_cell_eq. split.
    + intros [= H]. apply orb_prop in H as [H|H];
        apply bool_decide_eq_true in H; auto.
    + intros [H|H]; do 2 f_equal; apply orb_true_iff; [left|right];
        by apply bool_decide_eq_true.
Qed.

(** C2, as the notebook has it.  With the user name cut at its first dot
    and at its last dot: the first name is what precedes the first dot,
    when that is a non-empty run of word characters; the last name is
    what follows the LAST dot (up to a newline that ends the string), when
    that is a non-empty run of word characters; otherwise the name is
    missing. *)
Theorem names_from_dots rows i u given others before family :
  rows !! i = Some u →
  user_name u = given ++ DOT :: others → DOT ∉ given →
  user_name u = before ++ DOT :: family → DOT ∉ family →
  ∃ df, notebook common_passwords words (read_users rows) = Some df ∧
        cell_at df "first_name" i = Some (token_or_nan given) ∧
        cell_at df "last_name" i = Some (token_or_nan (chomp family)).
Proof.
  intros Hrow Hfirst Hgiven Hlast Hfamily.
  eexists. split; [apply notebook_evaluated|].
  destruct (evaluated_cells common_passwords words rows i u Hrow)
    as (_ & _ & _ & _ & _ & _ & Hf & Hl & _).
  rewrite Hf, Hl, first_name_value, last_name_value. unfold token_or_nan.
  split.
  - rewrite Hfirst, first_token_split by done. by destruct (is_token given).
  - rewrite Hlast, last_token_split, tail_token_chomp by done.
    by destruct (is_token (chomp family)).
Qed.

(** What the pattern of cell 7 finds.  A password is flagged exactly when
    one character other than a newline occurs four times in a row; so
    [aaaa] is flagged, and [aaa], [aabaa] and the empty password are not. *)
Theorem too_many_repeats_run :
  (∀ rows i u,
     rows !! i = Some u →
     ∃ df b, notebook common_passwords words (read_users rows) = Some df ∧
             cell_at df "too_many_repeats" i = Some (VBool b) ∧
             (b = true ↔ ∃ pre c post,
                c ≠ NEWLINE ∧ password u = pre ++ replicate 4 c ++ post)) ∧
  too_many_repeats (cps "aaaa") = VBool true ∧
  too_many_repeats (cps "aaa") = VBool false ∧
  too_many_repeats (cps "aabaa") = VBool false ∧
  too_many_repeats (cps "") = VBool false.
Proof.
  split; [|by rewrite !too_many_repeats_value].
  intros rows i u Hrow. eexists _, _. split; [apply notebook_evaluated|].
  destruct (evaluated_cells common_passwords words rows i u Hrow)
    as (_ & _ & _ & _ & _ & _ & _ & _ & _ & Hr & _).
  rewrite too_many_repeats_value in Hr. split; [exact Hr|].
  apply has_run4_spec.
Qed.

(** C10. Runs of newlines do not count: a password in which every run of
    four equal characters is a run of newlines is not flagged, while four
    or more of any other character in a row are. *)
Theorem newline_runs_do_not_count :
  (∀ rows i u,
     rows !! i = Some u →
     ∃ df, notebook common_passwords words (read_users rows) = Some df ∧
           ((∀ pre c post,
               password u = pre ++ replicate 4 c ++ post → c = NEWLINE) →
            cell_at df "too_many_repeats" i = Some (VBool false)) ∧
           (∀ pre c n post,
              c ≠ NEWLINE → 4 ≤ n →
              password u = pre ++ replicate n c ++ post →
              cell_at df "too_many_repeats" i = Some (VBool true))) ∧
  (∀ n, too_many_repeats (replicate n NEWLINE) = VBool false).
Proof.
  assert (∀ pw, (∀ pre c post, pw = pre ++ replicate 4 c ++ post → c = NEWLINE) →
                has_run4 pw = false) as Hnl.
  { intros pw Hpw. destruct (has_run4 pw) eqn:E; [|done].
    apply has_run4_spec in E as (pre & c & post & Hc & Heq).
    by specialize (Hpw _ _ _ Heq). }
  split.
  - intros rows i u Hrow. eexists. split; [apply notebook_evaluated|].
    destruct (evaluated_cells common_passwords words rows i u Hrow)
      as (_ & _ & _ & _ & _ & _ & _ & _ & _ & Hr & _).
    rewrite Hr, too_many_repeats_value. split.
    + intros Hpw. by rewrite Hnl.
    + intros pre c n post Hc Hn Heq. do 2 f_equal.
      apply has_run4_spec. exists pre, c, (replicate (n - 4) c ++ post).
      split; [done|]. rewrite Heq. f_equal.
      rewrite app_assoc, <- replicate_add. do 2 f_equal. lia.
  - intros n. rewrite too_many_repeats_value, Hnl; [done|].
    intros pre c post Heq.
    assert (c ∈ replicate n NEWLINE) as Hin.
    { rewrite Heq. apply elem_of_app. right. apply elem_of_app. left.
      apply elem_of_cons. by left. }
    by apply elem_of_replicate in Hin as [-> _].
Qed.
End Rules.

(** The boundary of the length rule on the printed rows: [joobheco] has 8
    characters, [5278049] has 7. *)
Lemma too_short_boundary_witness :
  (∃ df, notebook (U:=ascii_only) top_passwords top_words (read_users head12) = Some df ∧
         cell_at df "length" 0 = Some (VInt 8) ∧
         cell_at df "too_short" 0 = Some (VBool false)) ∧
  (∃ df, notebook (U:=ascii_only) top_passwords top_words (read_users head12) = Some df ∧
         cell_at df "length" 5 = Some (VInt 7) ∧
         cell_at df "too_short" 5 = Some (VBool true)).
Proof.
  split.
  - apply (too_short_boundary (U:=ascii_only) top_passwords top_words head12 0
             (User 1 (cps "vance.jennings") (cps "joobheco"))). reflexivity.
  - apply (too_short_boundary (U:=ascii_only) top_passwords top_words head12 5
             (User 6 (cps "shawn.harrington") (cps "5278049"))). reflexivity.
Defined.

(** The common-password rule on the printed rows: [master] is in the list. *)
Lemma common_password_exact_witness :
  ∃ df, notebook (U:=ascii_only) top_passwords top_words (read_users head12) = Some df ∧
        cell_at df "common_password" 6 = Some (VBool true).
Proof.
  apply (common_password_exact (U:=ascii_only) top_passwords top_words head12 6
           (User 7 (cps "evelyn.gay") (cps "master"))).
  reflexivity.
Defined.

(** C1 as stated fails: [MASTER] lowercases to the entry [master] of an
    all-lowercase list, and is not flagged. *)
Lemma common_password_is_case_sensitive :
  VStr (lower (U:=ascii_only) (cps "MASTER")) ∈ [VStr (cps "master")] ∧
  ∃ df, notebook (U:=ascii_only) [VStr (cps "master")] [VStr (cps "master")]
          (read_users [User 7 (cps "evelyn.gay") (cps "MASTER")]) = Some df ∧
        cell_at df "common_password" 0 = Some (VBool false).
Proof.
  split; [apply list_elem_of_here|].
  eexists. split; [apply notebook_evaluated|]. by vm_compute.
Defined.


(** A user name without a dot, used as its own password. *)
Lemma no_dot_no_match_witness :
  ∃ df, notebook (U:=ascii_only) top_passwords top_words
          (read_users [User 1 (cps "root") (cps "root")]) = Some df ∧
        cell_at df "first_name" 0 = Some NaN ∧
        cell_at df "last_name" 0 = Some NaN ∧
        cell_at df "uses_name" 0 = Some (VBool false).
Proof.
  apply (no_dot_no_match (U:=ascii_only) top_passwords top_words
           [User 1 (cps "root") (cps "root")] 0 (User 1 (cps "root") (cps "root"))).
  - reflexivity.
  - refine (bool_decide_unpack _ _); vm_compute; exact I.
Defined.

(** [vance.jennings] with the password [vance.jennings]. *)
Lemma identifier_as_password_witness :
  ∃ df, notebook (U:=ascii_only) top_passwords top_words
          (read_users [User 1 (cps "vance.jennings") (cps "vance.jennings")]) = Some df ∧
        cell_at df "uses_name" 0 = Some (VBool false).
Proof.
  destruct (identifier_as_password (U:=ascii_only) top_passwords top_words
              [User 1 (cps "vance.jennings") (cps "vance.jennings")] 0
              (User 1 (cps "vance.jennings") (cps "vance.jennings")) eq_refl)
    as (df & Hrun & Hsame & _).
  exists df. split; [exact Hrun | apply Hsame; reflexivity].
Defined.

(** A user name with two dots. *)
Lemma names_from_dots_witness :
  ∃ df, notebook (U:=ascii_only) top_passwords top_words
          (read_users [User 1 (cps "mary.j.watson") (cps "secret")]) = Some df ∧
        cell_at df "first_name" 0 = Some (VStr (cps "mary")) ∧
        cell_at df "last_name" 0 = Some (VStr (cps "watson")).
Proof.
  apply (names_from_dots (U:=ascii_only) top_passwords top_words
           [User 1 (cps "mary.j.watson") (cps "secret")] 0
           (User 1 (cps "mary.j.watson") (cps "secret"))
           (cps "mary") (cps "j.watson") (cps "mary.j") (cps "watson")).
  - reflexivity.
  - reflexivity.
  - refine (bool_decide_unpack _ _); vm_compute; exact I.
  - reflexivity.
  - refine (bool_decide_unpack _ _); vm_compute; exact I.
Defined.

(** C2 as stated fails: cut at its first dot, [a.b.c] is [a] and [b.c],
    but the last name the notebook extracts is [c]. *)
Lemma last_name_follows_last_dot :
  cps "a.b.c" = cps "a" ++ DOT :: cps "b.c" ∧ (DOT ∉ cps "a") ∧
  ∃ df, notebook (U:=ascii_only) top_passwords top_words
          (read_users [User 1 (cps "a.b.c") (cps "secret")]) = Some df ∧
        cell_at df "first_name" 0 = Some (VStr (cps "a")) ∧
        cell_at df "last_name" 0 = Some (VStr (cps "c")) ∧
        (cell_at df "last_name" 0 ≠ Some (VStr (cps "b.c"))).
Proof.
  split; [reflexivity|]. split; [refine (bool_decide_unpack _ _); vm_compute; exact I|].
  eexists. split; [apply notebook_evaluated|]. by vm_compute.
Defined.

(** Thurman Osborne's [rinnnng0], one of the six rows cell 7 prints. *)
Lemma too_many_repeats_run_witness :
  ∃ df b, notebook (U:=ascii_only) top_passwords top_words (read_users repeaters) = Some df ∧
          cell_at df "too_many_repeats" 4 = Some (VBool b) ∧
          (b = true ↔ ∃ pre c post,
             c ≠ NEWLINE ∧ cps "rinnnng0" = pre ++ replicate 4 c ++ post).
Proof.
  apply (proj1 (too_many_repeats_run (U:=ascii_only) top_passwords top_words)
           repeaters 4 (User 808 (cps "thurman.osborne") (cps "rinnnng0"))).
  reflexivity.
Defined.

(** C3.  Cell 7 is headed "Flagging the users with passwords with >= 4
    repeats", and a run of identical characters that reaches 4 is to be
    flagged.  Four newlines are such a run, and the cell leaves
    [too_many_repeats] [False] for them: the pattern's [.] skips the
    newline. *)
Lemma newline_run_is_not_flagged :
  replicate 4 NEWLINE = [] ++ replicate 4 NEWLINE ++ [] ∧
  ∃ df, notebook (U:=ascii_only) top_passwords top_words
          (read_users [User 1 (cps "a.b") (replicate 4 NEWLINE)]) = Some df ∧
        cell_at df "too_many_repeats" 0 = Some (VBool false).
Proof.
  split; [reflexivity|].
  eexists. split; [apply notebook_evaluated|]. by vm_compute.
Defined.

(** Five newlines between letters are not flagged; [rinnnng0] is. *)
Lemma newline_runs_do_not_count_witness :
  (∃ df, notebook (U:=ascii_only) top_passwords top_words
           (read_users [User 1 (cps "a.b") (cps "xy" ++ replicate 5 NEWLINE ++ cps "z")])
         = Some df ∧
         cell_at df "too_many_repeats" 0 = Some (VBool false)) ∧
  (∃ df, notebook (U:=ascii_only) top_passwords top_words (read_users repeaters) = Some df ∧
         cell_at df "too_many_repeats" 4 = Some (VBool true)).
Proof.
  split.
  - destruct (proj1 (newline_runs_do_not_count (U:=ascii_only) top_passwords top_words)
                [User 1 (cps "a.b") (cps "xy" ++ replicate 5 NEWLINE ++ cps "z")] 0
                (User 1 (cps "a.b") (cps "xy" ++ replicate 5 NEWLINE ++ cps "z")) eq_refl)
      as (df & Hrun & Hnl & _).
    exists df. split; [exact Hrun|]. apply Hnl.
    intros pre c post Heq.
    destruct (decide (c = NEWLINE)) as [|Hc]; [done|]. exfalso.
    assert (has_run4 (cps "xy" ++ replicate 5 NEWLINE ++ cps "z") = true) as Hrun4
      by (apply has_run4_spec; eauto).
    vm_compute in Hrun4. discriminate.
  - destruct (proj1 (newline_runs_do_not_count (U:=ascii_only) top_passwords top_words)
                repeaters 4 (User 808 (cps "thurman.osborne") (cps "rinnnng0")) eq_refl)
      as (df & Hrun & _ & Hother).
    exists df. split; [exact Hrun|].
    apply (Hother (cps "ri") 110%N 4 (cps "g0")); [done|lia|reflexivity].
Defined.

(** * The cells on any frame *)

#[local] Set Warnings "-clear-no-such-hyp".

Section AnyFrame.
Context {U : UnicodeDB}.
Variables (common_passwords words : list value).

Ltac cells :=
  unfold notebook, cell_too_short, cell_common_password, cell_common_word,
    cell_uses_name, cell_too_many_repeats, cell_bad_password.

(** With the two input columns present, every lookup the cells make
    succeeds and the frame they leave is [written]. *)
Lemma notebook_written users names passwords :
  users !! "user_name" = Some names →
  users !! "password" = Some passwords →
  notebook common_passwords words users
  = Some (written common_passwords words names passwords users).
Proof.
  intros Hn Hp. cells.
  repeat (lookups; rewrite ?Hn, ?Hp; cbn [mbind option_bind]).
  reflexivity.
Qed.

Lemma notebook_needs_columns users :
  is_Some (notebook common_passwords words users) →
  is_Some (users !! "password") ∧ is_Some (users !! "user_name").
Proof.
  destruct (users !! "password") as [passwords|] eqn:Hp.
  - destruct (users !! "user_name") as [names|] eqn:Hn; [by eauto|].
    cells. repeat (lookups; rewrite ?Hn, ?Hp; cbn [mbind option_bind]).
    by intros [? ?].
  - cells. rewrite Hp. by intros [? ?].
Qed.

(** X1. On a frame whose [user_name] and [password] columns, where
    present, hold strings, the notebook runs to its end exactly when both
    columns are there; a missing one is a [KeyError], and no later cell
    misses a column an earlier cell should have written. *)
Theorem notebook_runs_iff users :
  string_frame users = true →
  (is_Some (notebook common_passwords words users)
   ↔ is_Some (users !! "password") ∧ is_Some (users !! "user_name")).
Proof.
  intros _. split; [apply notebook_needs_columns|].
  intros [[passwords Hp] [names Hn]].
  rewrite (notebook_written _ _ _ Hn Hp). eauto.
Qed.

(** X3. The cells assign their nine columns and nothing else: the frame
    they leave has the columns it had plus those nine, and every other
    column, [user_name] and [password] among them, is what it was. *)
Theorem notebook_frame_condition users df :
  notebook common_passwords words users = Some df →
  dom df = dom users ∪ list_to_set written_columns ∧
  ∀ col, col ∉ written_columns → df !! col = users !! col.
Proof.
  intros Hrun.
  assert (is_Some (notebook common_passwords words users)) as Hsome by eauto.
  apply notebook_needs_columns in Hsome as [[passwords Hp] [names Hn]].
  rewrite (notebook_written _ _ _ Hn Hp) in Hrun. injection Hrun as <-.
  unfold written, written_columns. split.
  - rewrite !dom_insert_L. set_solver.
  - intros col Hcol.
    rewrite !lookup_insert_ne; [done|..];
      intros <-; apply Hcol; set_solver.
Qed.

(** X4. Columns of one height stay of one height: if every column of the
    frame has [n] rows, so has every column of the frame the cells leave. *)
Theorem notebook_keeps_height users df n :
  (∀ col s, users !! col = Some s → length s = n) →
  notebook common_passwords words users = Some df →
  ∀ col s, df !! col = Some s → length s = n.
Proof.
  intros Hwf Hrun.
  assert (is_Some (notebook common_passwords words users)) as Hsome by eauto.
  apply notebook_needs_columns in Hsome as [[passwords Hp] [names Hn]].
  rewrite (notebook_written _ _ _ Hn Hp) in Hrun. injection Hrun as <-.
  pose proof (Hwf _ _ Hp) as Hlp. pose proof (Hwf _ _ Hn) as Hln.
  intros col s. unfold written, bad_password_column, uses_name_column.
  repeat (rewrite lookup_insert; case_decide;
          [intros [= <-];
           repeat (rewrite length_zip_with || rewrite length_fmap); lia|]).
  apply Hwf.
Qed.

(** X5. Stale results do not leak: the nine assigned columns are computed
    from [user_name] and [password] alone, so two frames that agree on
    those two columns get the same nine, whatever else they held. *)
Theorem notebook_ignores_stale_columns users1 users2 df1 df2 :
  users1 !! "user_name" = users2 !! "user_name" →
  users1 !! "password" = users2 !! "password" →
  notebook common_passwords words users1 = Some df1 →
  notebook common_passwords words users2 = Some df2 →
  ∀ col, col ∈ written_columns → df1 !! col = df2 !! col.
Proof.
  intros Hname Hpass Hrun1 Hrun2.
  assert (is_Some (notebook common_passwords words users1)) as Hsome by eauto.
  apply notebook_needs_columns in Hsome as [[passwords Hp] [names Hn]].
  rewrite (notebook_written _ _ _ Hn Hp) in Hrun1.
  rewrite Hname in Hn. rewrite Hpass in Hp.
  rewrite (notebook_written _ _ _ Hn Hp) in Hrun2.
  injection Hrun1 as <-. injection Hrun2 as <-.
  intros col Hcol. unfold written_columns in Hcol. unfold written.
  repeat (apply elem_of_cons in Hcol as [->|Hcol]; [by lookups|]).
  by apply elem_of_nil in Hcol.
Qed.

(** X6. A missing password is never reported.  In a frame whose
    [user_name] and [password] columns hold strings, for a row whose
    password is missing, with no missing entry in the two lists: the length
    is missing and [too_short] is [False], [uses_name] is [False],
    [too_many_repeats] is missing, and [bad_password] is [False]. *)
Theorem missing_password_passes users names passwords i name :
  users !! "user_name" = Some names →
  users !! "password" = Some passwords →
  string_column names = true →
  string_column passwords = true →
  names !! i = Some name →
  passwords !! i = Some NaN →
  NaN ∉ common_passwords → NaN ∉ words →
  ∃ df, notebook common_passwords words users = Some df ∧
        cell_at df "length" i = Some NaN ∧
        cell_at df "too_short" i = Some (VBool false) ∧
        cell_at df "common_password" i = Some (VBool false) ∧
        cell_at df "common_word" i = Some (VBool false) ∧
        cell_at df "uses_name" i = Some (VBool false) ∧
        cell_at df "too_many_repeats" i = Some NaN ∧
        cell_at df "bad_password" i = Some (VBool false).
Proof.
  intros Hn Hp _ _ Hname Hpass Hcp Hw.
  eexists. split; [by apply notebook_written|].
  unfold cell_at, written, bad_password_column, uses_name_column.
  repeat split; lookups;
    rewrite ?lookup_zip_with, ?list_lookup_fmap, ?lookup_zip_with,
      ?list_lookup_fmap, ?lookup_zip_with, ?list_lookup_fmap,
      ?lookup_zip_with, ?list_lookup_fmap, ?Hname, ?Hpass;
    cbn [fmap option_fmap option_map mbind option_bind str_len lt str_lower
         str_contains eq_value or_value];
    unfold isin, eq_True;
    rewrite ?(bool_decide_eq_false_2 (NaN ∈ common_passwords)) by done;
    rewrite ?(bool_decide_eq_false_2 (NaN ∈ words)) by done;
    try done.
Qed.
Lemma notebook_fails users :
  users !! "password" = None ∨ users !! "user_name" = None →
  notebook common_passwords words users = None.
Proof.
  intros Hmiss. destruct (notebook _ _ users) as [df|] eqn:Hrun; [|done].
  assert (is_Some (notebook common_passwords words users)) as Hsome by eauto.
  apply notebook_needs_columns in Hsome as [[? Hp] [? Hn]].
  destruct Hmiss; congruence.
Qed.

(** X7. Looking at the first [n] rows commutes with the cells: where the
    [user_name] and [password] columns hold strings, in the frame and in
    its first [n] rows, running the notebook on [users.head(n)] gives the
    first [n] rows of what it gives on [users].  No rule looks at another
    row. *)
Theorem notebook_head n users :
  string_frame users = true →
  string_frame (head n users) = true →
  notebook common_passwords words (head n users)
  = head n <$> notebook common_passwords words users.
Proof.
  intros _ _.
  unfold head.
  destruct (users !! "password") as [passwords|] eqn:Hp;
    [destruct (users !! "user_name") as [names|] eqn:Hn|].
  - rewrite (notebook_written users names passwords) by done.
    rewrite (notebook_written _ (take n names) (take n passwords))
      by (by rewrite lookup_fmap, ?Hn, ?Hp).
    cbn [fmap option_fmap option_map]. f_equal.
    unfold written, bad_password_column, uses_name_column.
    rewrite !fmap_insert.
    repeat (rewrite zip_with_take || rewrite <- fmap_take).
    reflexivity.
  - rewrite !notebook_fails; [done|by right|right].
    by rewrite lookup_fmap, Hn.
  - rewrite !notebook_fails; [done|by left|left].
    by rewrite lookup_fmap, Hp.
Qed.

(** X8. Running the notebook on the frame it has left gives that frame
    again, for every frame it runs on: the nine columns are overwritten
    with the same values. *)
Theorem notebook_twice users df :
  notebook common_passwords words users = Some df →
  notebook common_passwords words df = Some df.
Proof.
  intros Hrun.
  assert (is_Some (notebook common_passwords words users)) as Hsome by eauto.
  apply notebook_needs_columns in Hsome as [[passwords Hp] [names Hn]].
  rewrite (notebook_written _ _ _ Hn Hp) in Hrun. injection Hrun as <-.
  rewrite (notebook_written _ names passwords)
    by (unfold written; by lookups).
  f_equal. apply map_eq. intros col. unfold written.
  do 9 (rewrite lookup_insert; case_decide; [subst col; by lookups|]).
  reflexivity.
Qed.
End AnyFrame.

(** * What the cells print *)

Lemma eq_True_iff v : eq_True v = VBool true ↔ v = VBool true.
Proof.
  unfold eq_True. split.
  - intros [= H]. by apply bool_decide_eq_true in H.
  - intros ->. done.
Qed.

Lemma mask_series_fmap {A} (m g : A → value) (P : A → Prop)
    `{∀ x, Decision (P x)} (rows : list A) :
  (∀ x, m x = VBool true ↔ P x) →
  mask_series (m <$> rows) (g <$> rows) = g <$> filter P rows.
Proof.
  intros Hm. induction rows as [|x rows IH]; [done|].
  cbn [fmap list_fmap mask_series]. rewrite filter_cons.
  destruct (decide (P x)) as [HP|HP].
  - rewrite bool_decide_eq_true_2 by (by apply Hm).
    cbn [fmap list_fmap]. f_equal. apply IH.
  - rewrite bool_decide_eq_false_2 by (by rewrite Hm). apply IH.
Qed.

Lemma py_sum_from z (f : user → bool) rows :
  foldl (λ acc v, acc ≫= λ a, add_value a v) (Some (VInt z))
        ((λ u, VBool (f u)) <$> rows)
  = Some (VInt (z + count_where f rows)).
Proof.
  revert z. induction rows as [|u rows IH]; intros z; simpl.
  - f_equal. f_equal. lia.
  - rewrite IH. do 2 f_equal. lia.
Qed.

Lemma py_sum_flags (f : user → bool) rows :
  py_sum ((λ u, VBool (f u)) <$> rows) = Some (VInt (count_where f rows)).
Proof. unfold py_sum. by rewrite py_sum_from. Qed.

Lemma count_where_bounds (a b c d e : user → bool) rows :
  let bad := count_where (λ u, a u || b u || c u || d u || e u) rows in
  (0 ≤ count_where a rows ≤ bad ∧ 0 ≤ count_where b rows ≤ bad ∧
   0 ≤ count_where c rows ≤ bad ∧ 0 ≤ count_where d rows ≤ bad ∧
   0 ≤ count_where e rows ≤ bad ∧
   bad ≤ count_where a rows + count_where b rows + count_where c rows
         + count_where d rows + count_where e rows ∧
   bad ≤ Z.of_nat (length rows))%Z.
Proof.
  induction rows as [|u rows IH]; cbn [count_where length]; [lia|].
  cbn zeta in IH.
  destruct (a u), (b u), (c u), (d u), (e u); cbn [orb Z.b2z]; lia.
Qed.

Section Printed.
Context {U : UnicodeDB}.
Variables (common_passwords words : list value).

(** X9. What cell 7 prints, [users[users['too_many_repeats']==True]], is
    the frame of exactly the flagged users, in their original order, with
    the columns the cells would have given them on their own. *)
Theorem shown_repeats_are_the_flagged rows :
  through_cell7 common_passwords words (read_users rows) ≫= shown_repeats
  = through_cell7 common_passwords words
      (read_users (filter (λ u, too_many_repeats (password u) = VBool true) rows)).
Proof.
  unfold through_cell7, cell_too_short, cell_common_password, cell_common_word,
    cell_uses_name, cell_too_many_repeats, read_users.
  lookups. columns. unfold shown_repeats. lookups. columns.
  f_equal. unfold mask_rows. rewrite !fmap_insert, fmap_empty.
  rewrite !(mask_series_fmap _ _
              (λ u, too_many_repeats (password u) = VBool true));
    [reflexivity|..]; intros u; apply eq_True_iff.
Qed.

(** One truth value per rule and user. *)
Lemma bad_password_value u :
  bad_password common_passwords words u =
    VBool (bool_decide (length (password u) < 8)
           || bool_decide (VStr (password u) ∈ common_passwords)
           || bool_decide (VStr (lower (password u)) ∈ words)
           || (bool_decide (first_token (user_name u) = Some (lower (password u)))
               || bool_decide (last_token (user_name u) = Some (lower (password u))))
           || has_run4 (password u)).
Proof.
  unfold bad_password.
  rewrite too_short_value, uses_name_value, too_many_repeats_value.
  unfold common_password, common_word, isin. cbn [str_lower].
  by rewrite !eq_True_bool.
Qed.

(** X10. The numbers the cells print.  Each [sum(users[flag])] is a count
    between 0 and the count of bad passwords, and the count of bad
    passwords is at most the five counts together and at most the number
    of users. *)
Theorem printed_counts rows :
  ∃ df too_short common_password common_word uses_name too_many_repeats bad,
    notebook common_passwords words (read_users rows) = Some df ∧
    printed_count "too_short" df = Some (VInt too_short) ∧
    printed_count "common_password" df = Some (VInt common_password) ∧
    printed_count "common_word" df = Some (VInt common_word) ∧
    printed_count "uses_name" df = Some (VInt uses_name) ∧
    printed_count "too_many_repeats" df = Some (VInt too_many_repeats) ∧
    printed_count "bad_password" df = Some (VInt bad) ∧
    (0 ≤ too_short ≤ bad ∧ 0 ≤ common_password ≤ bad ∧
     0 ≤ common_word ≤ bad ∧ 0 ≤ uses_name ≤ bad ∧
     0 ≤ too_many_repeats ≤ bad ∧
     bad ≤ too_short + common_password + common_word + uses_name
           + too_many_repeats ∧
     bad ≤ Z.of_nat (length rows))%Z.
Proof.
  set (a := λ u : user, bool_decide (length (password u) < 8)).
  set (b := λ u : user, bool_decide (VStr (password u) ∈ common_passwords)).
  set (c := λ u : user, bool_decide (VStr (lower (password u)) ∈ words)).
  set (d := λ u : user,
         bool_decide (first_token (user_name u) = Some (lower (password u)))
         || bool_decide (last_token (user_name u) = Some (lower (password u)))).
  set (e := λ u : user, has_run4 (password u)).
  assert ((λ u, too_short (password u)) <$> rows = (λ u, VBool (a u)) <$> rows)
    as Ha by (apply list_fmap_ext; intros; apply too_short_value).
  assert ((λ u, uses_name (user_name u) (password u)) <$> rows
          = (λ u, VBool (d u)) <$> rows)
    as Hd by (apply list_fmap_ext; intros; apply uses_name_value).
  assert ((λ u, too_many_repeats (password u)) <$> rows
          = (λ u, VBool (e u)) <$> rows)
    as He by (apply list_fmap_ext; intros; apply too_many_repeats_value).
  assert (bad_password common_passwords words <$> rows
          = (λ u, VBool (a u || b u || c u || d u || e u)) <$> rows)
    as Hbad by (apply list_fmap_ext; intros; apply bad_password_value).
  eexists _, _, _, _, _, _, _. split; [apply notebook_evaluated|].
  unfold printed_count, evaluated, read_users. lookups.
  rewrite Ha, Hd, He, Hbad.
  change ((λ u, common_password common_passwords (password u)) <$> rows)
    with ((λ u, VBool (b u)) <$> rows).
  change ((λ u, common_word words (password u)) <$> rows)
    with ((λ u, VBool (c u)) <$> rows).
  rewrite !py_sum_flags.
  repeat (split; [reflexivity|]).
  apply (count_where_bounds a b c d e).
Qed.
End Printed.

(** * More on the rules *)

Lemma ascii_lower_ascii c : (c <? 128)%N = true → (ascii_lower c <? 128)%N = true.
Proof.
  unfold ascii_lower, between. intros Hc%N.ltb_lt.
  destruct (_ && _) eqn:E; apply N.ltb_lt; [|done].
  apply andb_prop in E as [_ E%N.leb_le]. lia.
Qed.

Lemma ascii_lower_no_capital c : between 65 90 (ascii_lower c) = false.
Proof.
  unfold ascii_lower. destruct (between 65 90 c) eqn:E; [|done].
  unfold between in *. apply andb_prop in E as [E1%N.leb_le E2%N.leb_le].
  replace (c + 32 <=? 90)%N with false by (symmetry; apply N.leb_gt; lia).
  by rewrite andb_false_r.
Qed.

Lemma ascii_lower_twice c : ascii_lower (ascii_lower c) = ascii_lower c.
Proof.
  pose proof (ascii_lower_no_capital c) as Hlow.
  unfold ascii_lower at 1. by rewrite Hlow.
Qed.

Section MoreRules.
Context {U : UnicodeDB}.
Variables (common_passwords words : list value).

Lemma lower_from_ascii before s :
  is_ascii s = true → lower_from before s = ascii_lower <$> s.
Proof.
  unfold is_ascii.
  revert before. induction s as [|c s IH]; intros before; [done|].
  cbn [forallb]. intros [Hc Hs]%andb_prop.
  cbn [lower_from]. unfold lower_char. rewrite Hc.
  cbn [app fmap list_fmap]. f_equal. by apply IH.
Qed.

Lemma lower_ascii s : is_ascii s = true → lower s = ascii_lower <$> s.
Proof. apply lower_from_ascii. Qed.

Lemma lower_is_ascii s : is_ascii s = true → is_ascii (lower s) = true.
Proof.
  intros Hs. rewrite lower_ascii by done. unfold is_ascii in *.
  induction s as [|c s IH]; [done|].
  cbn [fmap list_fmap forallb] in *. apply andb_prop in Hs as [Hc Hs].
  rewrite ascii_lower_ascii by done. by apply IH.
Qed.

Lemma lower_twice s : is_ascii s = true → lower (lower s) = lower s.
Proof.
  intros Hs. rewrite (lower_ascii (lower s)) by (by apply lower_is_ascii).
  rewrite lower_ascii by done. rewrite <- list_fmap_compose.
  apply list_fmap_ext. intros _ c _. apply ascii_lower_twice.
Qed.

Lemma lower_no_capital s : is_ascii s = true → has_capital (lower s) = false.
Proof.
  intros Hs. rewrite lower_ascii by done. clear Hs. unfold has_capital.
  induction s as [|c s IH]; [done|].
  cbn [fmap list_fmap existsb].
  by rewrite ascii_lower_no_capital.
Qed.

Lemma chomp_words w : forallb is_word w = true → chomp w = w.
Proof.
  induction w as [|c w IH]; [done|].
  cbn [forallb]. intros [Hc Hw]%andb_prop.
  destruct w as [|c' w].
  - simpl. destruct (c =? NEWLINE)%N eqn:E; [|done].
    apply N.eqb_eq in E. subst c. by rewrite is_word_newline in Hc.
  - change (chomp (c :: c' :: w)) with (c :: chomp (c' :: w)). by rewrite IH.
Qed.

(** X11. A password passes, [bad_password] is [False], exactly when it has
    at least 8 characters, is no entry of the password list as typed, its
    lowercase is no entry of the word list and neither of the user's two
    names, and no character other than a newline stands four times in a
    row. *)
Theorem passes_iff rows i u :
  rows !! i = Some u →
  ∃ df b,
    notebook common_passwords words (read_users rows) = Some df ∧
    cell_at df "bad_password" i = Some (VBool b) ∧
    (b = false ↔
       8 ≤ length (password u) ∧
       (VStr (password u) ∉ common_passwords) ∧
       (VStr (lower (password u)) ∉ words) ∧
       (cell_at df "first_name" i ≠ Some (VStr (lower (password u)))) ∧
       (cell_at df "last_name" i ≠ Some (VStr (lower (password u)))) ∧
       ¬ ∃ pre c post,
           c ≠ NEWLINE ∧ password u = pre ++ replicate 4 c ++ post).
Proof.
  intros Hrow. eexists _, _. split; [apply notebook_evaluated|].
  destruct (evaluated_cells common_passwords words rows i u Hrow)
    as (_ & _ & _ & _ & _ & _ & Hf & Hl & _ & _ & Hbad).
  rewrite bad_password_value in Hbad. split; [exact Hbad|].
  rewrite Hf, Hl, first_name_value, last_name_value, !name_cell_eq.
  rewrite <- has_run4_spec.
  rewrite !orb_false_iff, !bool_decide_eq_false, not_true_iff_false.
  split; [intros ((((? & ?) & ?) & ? & ?) & ?) | intros (? & ? & ? & ? & ? & ?)];
    repeat split; try done; lia.
Qed.

(** X12. On a well-formed user name, a first name and a last name joined
    by a dot, the two extractions give the two names back, and
    [uses_name] is set exactly when the lowercased password is one of
    them. *)
Theorem names_round_trip first last password :
  is_token first = true → is_token last = true →
  first_name (first ++ DOT :: last) = VStr first ∧
  last_name (first ++ DOT :: last) = VStr last ∧
  uses_name (first ++ DOT :: last) password
  = VBool (bool_decide (lower password = first)
           || bool_decide (lower password = last)).
Proof.
  intros Hf Hl.
  assert (first_token (first ++ DOT :: last) = Some first) as Hft.
  { rewrite first_token_split, Hf; [done|].
    apply dot_not_in_words. by apply andb_prop in Hf as [_ ?]. }
  assert (last_token (first ++ DOT :: last) = Some last) as Hlt.
  { pose proof Hl as [_ Hw]%andb_prop.
    rewrite last_token_split by (by apply dot_not_in_words).
    by rewrite tail_token_chomp, chomp_words, Hl. }
  rewrite uses_name_value, first_name_value, last_name_value, Hft, Hlt.
  repeat split. do 2 f_equal; apply bool_decide_ext; split; congruence.
Qed.

(** X13. The password is lowercased, the names are not: a user whose
    extracted names all hold a capital letter is never flagged by
    [uses_name], whatever ASCII password they have. *)
Theorem capital_names_never_match user_name password :
  is_ascii password = true →
  (∀ w, first_name user_name = VStr w ∨ last_name user_name = VStr w →
        has_capital w = true) →
  uses_name user_name password = VBool false.
Proof.
  intros Hpw Hcap. pose proof (lower_no_capital _ Hpw) as Hlow.
  rewrite uses_name_value. do 2 f_equal.
  rewrite first_name_value, last_name_value in Hcap.
  rewrite !bool_decide_eq_false_2; [done| |]; intros Heq; rewrite Heq in Hcap.
  - rewrite Hcap in Hlow by (by right). done.
  - rewrite Hcap in Hlow by (by left). done.
Qed.

(** X14. Repetition cannot be padded away: a flagged password has at
    least four characters, and stays flagged with anything put before or
    after it. *)
Theorem too_many_repeats_extends password before after :
  too_many_repeats password = VBool true →
  4 ≤ length password ∧
  too_many_repeats (before ++ password ++ after) = VBool true.
Proof.
  rewrite !too_many_repeats_value. intros [= Hrun].
  apply has_run4_spec in Hrun as (pre & c & post & Hc & ->). split.
  - rewrite !length_app, length_replicate. lia.
  - do 2 f_equal. apply has_run4_spec.
    exists (before ++ pre), c, (post ++ after). split; [done|].
    by rewrite <- !app_assoc.
Qed.

(** X15. For the word list and the names the case of an ASCII password
    does not matter: the lowercased password gets the same [common_word]
    and [uses_name] as the password itself. *)
Theorem password_case_is_ignored user_name password :
  is_ascii password = true →
  common_word words (lower password) = common_word words password ∧
  uses_name user_name (lower password) = uses_name user_name password.
Proof.
  intros Hpw. unfold common_word, uses_name. cbn [str_lower].
  by rewrite lower_twice.
Qed.

(** X16. An entry of the word list that holds a capital letter is dead:
    with only such entries, no ASCII password is a [common_word]. *)
Theorem capital_words_never_hit password :
  is_ascii password = true →
  (∀ w, VStr w ∈ words → has_capital w = true) →
  common_word words password = VBool false.
Proof.
  intros Hpw Hcap. unfold common_word, isin. cbn [str_lower]. f_equal.
  apply bool_decide_eq_false. intros Hin%Hcap.
  by rewrite lower_no_capital in Hin.
Qed.
End MoreRules.

(** * The further properties on the printed rows *)

(** The printed rows have both columns and run; a frame with passwords
    only does not. *)
Lemma notebook_runs_iff_witness :
  (is_Some (notebook (U:=ascii_only) top_passwords top_words (read_users head12))
   ↔ is_Some (read_users head12 !! "password")
     ∧ is_Some (read_users head12 !! "user_name")) ∧
  (is_Some (notebook (U:=ascii_only) top_passwords top_words passwords_only)
   ↔ is_Some (passwords_only !! "password")
     ∧ is_Some (passwords_only !! "user_name")).
Proof.
  split.
  - apply (notebook_runs_iff (U:=ascii_only) top_passwords top_words
             (read_users head12)). vm_compute. reflexivity.
  - apply (notebook_runs_iff (U:=ascii_only) top_passwords top_words
             passwords_only). vm_compute. reflexivity.
Defined.

(** The first three of the printed rows. *)
Lemma notebook_head_witness :
  notebook (U:=ascii_only) top_passwords top_words (head 3 (read_users head12))
  = head 3 <$> notebook (U:=ascii_only) top_passwords top_words (read_users head12).
Proof.
  apply (notebook_head (U:=ascii_only) top_passwords top_words 3 (read_users head12));
    vm_compute; reflexivity.
Defined.

Lemma notebook_frame_condition_witness :
  dom head12_frame = dom (read_users head12) ∪ list_to_set written_columns ∧
  ∀ col, col ∉ written_columns → head12_frame !! col = read_users head12 !! col.
Proof.
  apply (notebook_frame_condition (U:=ascii_only) top_passwords top_words).
  vm_compute. reflexivity.
Defined.

Lemma notebook_keeps_height_witness :
  ∃ s, head12_frame !! "uses_name" = Some s ∧ length s = 12.
Proof.
  exists (replicate 11 (VBool false) ++ [VBool true]).
  split; [vm_compute; reflexivity|].
  eapply (λ Hwf Hrun,
            notebook_keeps_height (U:=ascii_only) top_passwords top_words
              (read_users head12) head12_frame 12 Hwf Hrun "uses_name").
  - intros col s. unfold read_users.
    do 3 (rewrite lookup_insert; case_decide; [by intros [= <-]|]).
    by rewrite lookup_empty.
  - vm_compute. reflexivity.
  - vm_compute. reflexivity.
Defined.

(** The stale [bad_password] column of [head12_stale] is overwritten. *)
Lemma notebook_ignores_stale_columns_witness :
  head12_frame !! "bad_password"
  = default ∅ (notebook (U:=ascii_only) top_passwords top_words head12_stale)
      !! "bad_password".
Proof.
  apply (notebook_ignores_stale_columns (U:=ascii_only) top_passwords top_words
           (read_users head12) head12_stale).
  - reflexivity.
  - reflexivity.
  - vm_compute. reflexivity.
  - vm_compute. reflexivity.
  - refine (bool_decide_unpack _ _); vm_compute; exact I.
Defined.

Lemma missing_password_passes_witness :
  ∃ df, notebook (U:=ascii_only) top_passwords top_words two_users = Some df ∧
        cell_at df "length" 1 = Some NaN ∧
        cell_at df "too_short" 1 = Some (VBool false) ∧
        cell_at df "common_password" 1 = Some (VBool false) ∧
        cell_at df "common_word" 1 = Some (VBool false) ∧
        cell_at df "uses_name" 1 = Some (VBool false) ∧
        cell_at df "too_many_repeats" 1 = Some NaN ∧
        cell_at df "bad_password" 1 = Some (VBool false).
Proof.
  apply (missing_password_passes (U:=ascii_only) top_passwords top_words two_users
           [VStr (cps "ann.lee"); VStr (cps "bob.ray")]
           [VStr (cps "secret12"); NaN] 1 (VStr (cps "bob.ray")));
    try reflexivity; refine (bool_decide_unpack _ _); vm_compute; exact I.
Defined.

Lemma notebook_twice_witness :
  notebook (U:=ascii_only) top_passwords top_words head12_frame = Some head12_frame.
Proof.
  apply (notebook_twice (U:=ascii_only) top_passwords top_words head12_stale).
  vm_compute. reflexivity.
Defined.

(** The password of the last cell passes, for Vance Jennings. *)
Lemma passes_iff_witness :
  ∃ df, notebook (U:=ascii_only) top_passwords top_words
          (read_users [User 1 (cps "vance.jennings") new_password]) = Some df ∧
        cell_at df "bad_password" 0 = Some (VBool false).
Proof.
  destruct (passes_iff (U:=ascii_only) top_passwords top_words
              [User 1 (cps "vance.jennings") new_password] 0
              (User 1 (cps "vance.jennings") new_password) eq_refl)
    as (df & b & Hrun & Hcell & Hiff).
  exists df. split; [exact Hrun|]. rewrite Hcell. do 2 f_equal. apply Hiff.
  rewrite notebook_evaluated in Hrun. injection Hrun as <-.
  split; [vm_compute; lia|].
  split; [refine (bool_decide_unpack _ _); vm_compute; exact I|].
  split; [refine (bool_decide_unpack _ _); vm_compute; exact I|].
  split; [by vm_compute|]. split; [by vm_compute|].
  intros Hrun4%has_run4_spec. vm_compute in Hrun4. discriminate.
Defined.

Lemma names_round_trip_witness :
  first_name (U:=ascii_only) (cps "evelyn.gay") = VStr (cps "evelyn") ∧
  last_name (U:=ascii_only) (cps "evelyn.gay") = VStr (cps "gay") ∧
  uses_name (U:=ascii_only) (cps "evelyn.gay") (cps "GAY") = VBool true.
Proof.
  apply (names_round_trip (U:=ascii_only) (cps "evelyn") (cps "gay") (cps "GAY"));
    reflexivity.
Defined.

Lemma capital_names_never_match_witness :
  uses_name (U:=ascii_only) (cps "Vance.Jennings") (cps "vance") = VBool false.
Proof.
  apply (capital_names_never_match (U:=ascii_only)); [reflexivity|].
  intros w [H|H]; vm_compute in H; injection H as <-; reflexivity.
Defined.

Lemma too_many_repeats_extends_witness :
  4 ≤ length (cps "aaaa") ∧
  too_many_repeats (U:=ascii_only) (cps "x" ++ cps "aaaa" ++ cps "y") = VBool true.
Proof.
  apply (too_many_repeats_extends (U:=ascii_only) (cps "aaaa") (cps "x") (cps "y")).
  reflexivity.
Defined.

Lemma password_case_is_ignored_witness :
  common_word (U:=ascii_only) top_words (lower (U:=ascii_only) (cps "MASTER"))
  = common_word (U:=ascii_only) top_words (cps "MASTER") ∧
  uses_name (U:=ascii_only) (cps "milford.hubbard") (lower (U:=ascii_only) (cps "HUBBARD"))
  = uses_name (U:=ascii_only) (cps "milford.hubbard") (cps "HUBBARD").
Proof.
  split.
  - apply (password_case_is_ignored (U:=ascii_only) top_words
             (cps "milford.hubbard") (cps "MASTER")). reflexivity.
  - apply (password_case_is_ignored (U:=ascii_only) top_words
             (cps "milford.hubbard") (cps "HUBBARD")). reflexivity.
Defined.

Lemma capital_words_never_hit_witness :
  common_word (U:=ascii_only) [VStr (cps "Monday")] (cps "monday") = VBool false.
Proof.
  apply (capital_words_never_hit (U:=ascii_only)); [reflexivity|].
  intros w [= ->]%list_elem_of_singleton. reflexivity.
Defined.
